(** * Tenant isolation and schema lifecycle of optera_backend

    A shallow embedding of
    - [tenants/entities/tenant.entity.ts]      (the [Tenant] row),
    - [tenants/dto/tenant.dto.ts]              (the create and update drafts),
    - [tenants/services/tenants.service.ts]    ([TenantsService]),
    - [database/services/tenant-connection.service.ts]
                                               ([TenantConnectionService]),
    - [common/services/tenant.service.ts]      ([TenantService]),
    - [common/guards/tenant.guard.ts]          ([TenantGuard]).

    Every [async] method is a state transformer over one [World] that holds
    the tenants table, the physical schemas, the connection cache and the
    trace of effects issued so far.  A rejected promise is the [Rejected]
    outcome; the world it leaves behind is kept, because nothing in the
    services rolls an effect back on its own. *)

From stdpp Require Import gmap strings list fin_maps pretty.

Open Scope string_scope.
Open Scope list_scope.
Open Scope Z_scope.

(** ** Entities *)

Inductive TenantStatus := ACTIVE | INACTIVE | SUSPENDED | PENDING.
Inductive SubscriptionTier := FREE | BASIC | PROFESSIONAL | ENTERPRISE.

#[global] Instance TenantStatus_eq_dec : EqDecision TenantStatus.
Proof. solve_decision. Defined.
#[global] Instance SubscriptionTier_eq_dec : EqDecision SubscriptionTier.
Proof. solve_decision. Defined.

(** Modelled from the spec: [BaseEntity] (database/entities/base.entity.ts) is
    not part of the sources.  The spec has an identity on every record and a
    tombstone written by soft deletion, after which lookups no longer find the
    record; these are [id] and [deletedAt].  The remaining fields are the
    columns of [Tenant]; the [users] relation is not a column and is left
    out. *)
Record Tenant := mkTenant {
  id : string;
  deletedAt : option nat;
  name : string;
  subdomain : string;
  domain : option string;
  schemaName : string;
  status : TenantStatus;
  subscriptionTier : SubscriptionTier;
  isActive : bool;
  description : option string;
  logo : option string;
  website : option string;
  contactEmail : option string;
  contactPhone : option string;
  settings : option string;
  features : option (list string);
  maxUsers : Z;
  maxProjects : Z;
  storageLimit : Z;
  storageUsed : Z;
  subscriptionStartDate : option nat;
  subscriptionEndDate : option nat;
  lastActivityAt : option nat
}.

#[global] Instance Tenant_eq_dec : EqDecision Tenant.
Proof. solve_decision. Defined.

Module CreateTenantDto.
Record t := mk {
  name : string;
  subdomain : string;
  domain : option string;
  description : option string;
  contactEmail : option string;
  contactPhone : option string;
  website : option string;
  subscriptionTier : option SubscriptionTier;
  maxUsers : option Z;
  maxProjects : option Z;
  storageLimit : option Z
}.
End CreateTenantDto.

(** [PartialType(CreateTenantDto)] makes every inherited field optional. *)
Module UpdateTenantDto.
Record t := mk {
  name : option string;
  subdomain : option string;
  domain : option string;
  description : option string;
  contactEmail : option string;
  contactPhone : option string;
  website : option string;
  subscriptionTier : option SubscriptionTier;
  maxUsers : option Z;
  maxProjects : option Z;
  storageLimit : option Z;
  status : option TenantStatus;
  isActive : option bool;
  logo : option string;
  settings : option string;
  features : option (list string)
}.
End UpdateTenantDto.

(** JavaScript truthiness of an optional string: [undefined] and the empty
    string are falsy. *)
Definition truthy (s : option string) : bool :=
  match s with
  | Some v => negb (String.eqb v "")
  | None => false
  end.

(** ** Errors and promises *)

Inductive Exception :=
  | BadRequestException (message : string)
  | ForbiddenException (message : string)
  | NotFoundException (message : string)
  | ConflictException (message : string)
  | QueryFailedError (message : string)
  | DriverError (message : string).

Inductive Outcome (A : Type) :=
  | Resolved (value : A)
  | Rejected (error : Exception).
Arguments Resolved {A} value.
Arguments Rejected {A} error.

(** ** The world the services act on *)

(** A [DataSource] object of the connection cache. *)
Record DataSource := mkDataSource {
  schema : string;
  isInitialized : bool
}.

(** Effects that leave the process, in the order they were issued. *)
Inductive Event :=
  | Inserted (row : Tenant)
  | Updated (row : Tenant)
  | Deleted (rowId : string)
  | SoftDeleted (rowId : string)
  | SchemaCreated (schemaName : string)
  | SchemaDropped (schemaName : string)
  | Connected (handle : nat)
  | Destroyed (handle : nat).

Record World := mkWorld {
  tenants : list Tenant;                    (* the [tenants] table *)
  idSeq : nat;                              (* source of generated ids *)
  now : nat;                                (* the database clock *)
  schemas : gset string;                    (* schemas that physically exist *)
  tenantConnections : gmap string nat;      (* [Map<string, DataSource>] *)
  dataSources : list DataSource;            (* the objects behind the handles *)
  trace : list Event
}.

Definition Task (A : Type) : Type := World → Outcome A * World.

Definition resolve {A} (a : A) : Task A := λ w, (Resolved a, w).
Definition throw {A} (e : Exception) : Task A := λ w, (Rejected e, w).
Definition await {A B} (m : Task A) (k : A → Task B) : Task B :=
  λ w, match m w with
       | (Resolved a, w') => k a w'
       | (Rejected e, w') => (Rejected e, w')
       end.
Definition try_catch {A} (body : Task A) (handler : Exception → Task A) : Task A :=
  λ w, match body w with
       | (Resolved a, w') => (Resolved a, w')
       | (Rejected e, w') => handler e w'
       end.

Notation "'let*' x := m 'in' k" := (await m (λ x, k))
  (at level 10, x name, m at level 100, k at level 200).
Notation "m ;; k" := (await m (λ _, k))
  (at level 100, k at level 200, right associativity).

(** ** The repository of tenants

    What TypeORM's [Repository<Tenant>] does on the [tenants] table.  The
    unique indexes of the entity ([subdomain], [domain], [schemaName]) are
    enforced by the database on every row, tombstoned or not; a [NULL] domain
    never collides. *)

(** The database generates the primary key; [uuid n] stands for the [n]-th
    id it hands out. *)
Definition uuid (n : nat) : string := pretty n.

Definition live (t : Tenant) : bool :=
  match deletedAt t with None => true | Some _ => false end.

Inductive Where :=
  | ById (v : string)
  | BySubdomain (v : string)
  | ByDomain (v : string).

Definition matches (t : Tenant) (c : Where) : bool :=
  match c with
  | ById v => String.eqb (id t) v
  | BySubdomain v => String.eqb (subdomain t) v
  | ByDomain v =>
      match domain t with Some d => String.eqb d v | None => false end
  end.

Definition same_domain (a b : Tenant) : bool :=
  match domain a, domain b with
  | Some x, Some y => String.eqb x y
  | _, _ => false
  end.

Definition collides (e r : Tenant) : bool :=
  negb (String.eqb (id r) (id e))
  && (String.eqb (subdomain r) (subdomain e)
      || same_domain r e
      || String.eqb (schemaName r) (schemaName e)).

Definition violates (e : Tenant) (rows : list Tenant) : bool :=
  existsb (collides e) rows.

Definition has_id (i : string) (t : Tenant) : bool := String.eqb (id t) i.

Definition with_id (i : string) (t : Tenant) : Tenant :=
  mkTenant i (deletedAt t) (name t) (subdomain t) (domain t) (schemaName t)
    (status t) (subscriptionTier t) (isActive t) (description t) (logo t)
    (website t) (contactEmail t) (contactPhone t) (settings t) (features t)
    (maxUsers t) (maxProjects t) (storageLimit t) (storageUsed t)
    (subscriptionStartDate t) (subscriptionEndDate t) (lastActivityAt t).

Definition with_deletedAt (d : option nat) (t : Tenant) : Tenant :=
  mkTenant (id t) d (name t) (subdomain t) (domain t) (schemaName t)
    (status t) (subscriptionTier t) (isActive t) (description t) (logo t)
    (website t) (contactEmail t) (contactPhone t) (settings t) (features t)
    (maxUsers t) (maxProjects t) (storageLimit t) (storageUsed t)
    (subscriptionStartDate t) (subscriptionEndDate t) (lastActivityAt t).

(** [tenant.status = s] *)
Definition with_status (s : TenantStatus) (t : Tenant) : Tenant :=
  mkTenant (id t) (deletedAt t) (name t) (subdomain t) (domain t) (schemaName t)
    s (subscriptionTier t) (isActive t) (description t) (logo t)
    (website t) (contactEmail t) (contactPhone t) (settings t) (features t)
    (maxUsers t) (maxProjects t) (storageLimit t) (storageUsed t)
    (subscriptionStartDate t) (subscriptionEndDate t) (lastActivityAt t).

(** [tenant.isActive = a] *)
Definition with_isActive (a : bool) (t : Tenant) : Tenant :=
  mkTenant (id t) (deletedAt t) (name t) (subdomain t) (domain t) (schemaName t)
    (status t) (subscriptionTier t) a (description t) (logo t)
    (website t) (contactEmail t) (contactPhone t) (settings t) (features t)
    (maxUsers t) (maxProjects t) (storageLimit t) (storageUsed t)
    (subscriptionStartDate t) (subscriptionEndDate t) (lastActivityAt t).

Definition set_tenants (rows : list Tenant) (ev : list Event) (w : World) : World :=
  mkWorld rows (idSeq w) (now w) (schemas w) (tenantConnections w)
    (dataSources w) (trace w ++ ev).

(** [UPDATE tenants SET ... WHERE id = e.id] *)
Definition replace_row (e : Tenant) (rows : list Tenant) : list Tenant :=
  List.map (λ r, if has_id (id e) r then e else r) rows.

Definition duplicate_key : Exception :=
  QueryFailedError "duplicate key value violates unique constraint".

(** [{ storageUsed }] and [{ lastActivityAt }] as partial entities. *)
Definition with_storageUsed (n : Z) (t : Tenant) : Tenant :=
  mkTenant (id t) (deletedAt t) (name t) (subdomain t) (domain t) (schemaName t)
    (status t) (subscriptionTier t) (isActive t) (description t) (logo t)
    (website t) (contactEmail t) (contactPhone t) (settings t) (features t)
    (maxUsers t) (maxProjects t) (storageLimit t) n
    (subscriptionStartDate t) (subscriptionEndDate t) (lastActivityAt t).

Definition with_lastActivityAt (d : option nat) (t : Tenant) : Tenant :=
  mkTenant (id t) (deletedAt t) (name t) (subdomain t) (domain t) (schemaName t)
    (status t) (subscriptionTier t) (isActive t) (description t) (logo t)
    (website t) (contactEmail t) (contactPhone t) (settings t) (features t)
    (maxUsers t) (maxProjects t) (storageLimit t) (storageUsed t)
    (subscriptionStartDate t) (subscriptionEndDate t) d.

(** [save] loads the row stored under the entity's id and compares it with
    the entity column by column; [unchanged] tells that none differs. *)
Definition unchanged (e : Tenant) (rows : list Tenant) : bool :=
  bool_decide (List.find (has_id (id e)) rows = Some e).

Module Repository.

(** [findOne({ where: [c1, c2, ...] })]: the conditions are alternatives,
    and tombstoned rows are not seen. *)
Definition findOne (conditions : list Where) (w : World) : option Tenant :=
  List.find (λ t, live t && existsb (matches t) conditions) (tenants w).

(** [repository.save(entity)]: an entity whose id is already stored is updated
    when one of its columns differs from the stored row, and nothing is sent
    to the database when none does; any other entity is inserted under a
    generated id. *)
Definition save (e : Tenant) : Task Tenant := λ w,
  if existsb (has_id (id e)) (tenants w) then
    if unchanged e (tenants w) then (Resolved e, w)
    else if violates e (tenants w) then (Rejected duplicate_key, w)
    else (Resolved e, set_tenants (replace_row e (tenants w)) [Updated e] w)
  else
    let e' := with_id (uuid (idSeq w)) e in
    if violates e' (tenants w) then (Rejected duplicate_key, w)
    else (Resolved e',
          mkWorld (tenants w ++ [e']) (S (idSeq w)) (now w) (schemas w)
            (tenantConnections w) (dataSources w) (trace w ++ [Inserted e'])).

(** [repository.delete(id)] *)
Definition delete (i : string) : Task unit := λ w,
  (Resolved tt,
   set_tenants (List.filter (λ r, negb (has_id i r)) (tenants w)) [Deleted i] w).

(** [repository.softDelete(id)] *)
Definition softDelete (i : string) : Task unit := λ w,
  (Resolved tt,
   set_tenants
     (List.map (λ r, if has_id i r then with_deletedAt (Some (now w)) r else r)
        (tenants w))
     [SoftDeleted i] w).

(** [repository.update(id, partial)]: one [UPDATE ... WHERE id = $1], which
    neither loads the row nor fails when no row has the id. *)
Definition update (i : string) (partial : Tenant → Tenant) : Task unit := λ w,
  (Resolved tt,
   set_tenants
     (List.map (λ r, if has_id i r then partial r else r) (tenants w))
     (List.map (λ r, Updated (partial r)) (List.filter (has_id i) (tenants w)))
     w).

End Repository.

(** ** TenantConnectionService *)

(** How a DDL statement sent through a query runner ends: [connect()] may
    reject before the [try] block is entered, the statement itself may be
    rejected inside it, or it goes through. *)
Inductive Ddl := DdlOk | ConnectFails | QueryFails.

#[global] Instance Ddl_eq_dec : EqDecision Ddl.
Proof. solve_decision. Defined.

Definition set_initialized (h : nat) (b : bool) (l : list DataSource) : list DataSource :=
  match l !! h with
  | Some ds => <[h := mkDataSource (schema ds) b]> l
  | None => l
  end.

Module TenantConnectionService.

(** Where [getTenantConnection] stands once its synchronous prefix has run:
    it returned the cached handle, or it is suspended at
    [await connection.initialize()] holding the object it has just built. *)
Inductive Prefix :=
  | Returned (cached : option nat)
  | AwaitingInitialize (connection : nat).

Definition getTenantConnection_enter (tenantSchema : string) (w : World)
  : Prefix * World :=
  match tenantConnections w !! tenantSchema with
  | Some h => (Returned (tenantConnections w !! tenantSchema), w)
  | None =>
      (AwaitingInitialize (length (dataSources w)),
       mkWorld (tenants w) (idSeq w) (now w) (schemas w) (tenantConnections w)
         (dataSources w ++ [mkDataSource tenantSchema false]) (trace w))
  end.

(** The continuation of [await connection.initialize()]; [initialize] tells
    whether the physical connection could be established. *)
Definition getTenantConnection_resume (initialize : bool)
    (tenantSchema : string) (connection : nat) : Task (option nat) := λ w,
  if initialize then
    (Resolved (Some connection),
     mkWorld (tenants w) (idSeq w) (now w) (schemas w)
       (<[tenantSchema := connection]> (tenantConnections w))
       (set_initialized connection true (dataSources w))
       (trace w ++ [Connected connection]))
  else (Rejected (DriverError "connection could not be initialized"), w).

(** One call that nothing else interleaves with. *)
Definition getTenantConnection (initialize : bool) (tenantSchema : string)
  : Task (option nat) := λ w,
  match getTenantConnection_enter tenantSchema w with
  | (Returned r, w') => (Resolved r, w')
  | (AwaitingInitialize h, w') =>
      getTenantConnection_resume initialize tenantSchema h w'
  end.

Definition createTenantSchema (db : Ddl) (tenantSchema : string) : Task unit := λ w,
  match db with
  | ConnectFails => (Rejected (DriverError "query runner could not connect"), w)
  | QueryFails => (Rejected (QueryFailedError "CREATE SCHEMA failed"), w)
  | DdlOk =>
      (Resolved tt,
       mkWorld (tenants w) (idSeq w) (now w) (schemas w ∪ {[tenantSchema]})
         (tenantConnections w) (dataSources w)
         (trace w ++ [SchemaCreated tenantSchema]))
  end.

Definition dropTenantSchema (db : Ddl) (tenantSchema : string) : Task unit := λ w,
  match db with
  | ConnectFails => (Rejected (DriverError "query runner could not connect"), w)
  | QueryFails => (Rejected (QueryFailedError "DROP SCHEMA failed"), w)
  | DdlOk =>
      (Resolved tt,
       mkWorld (tenants w) (idSeq w) (now w) (schemas w ∖ {[tenantSchema]})
         (delete tenantSchema (tenantConnections w)) (dataSources w)
         (trace w ++ [SchemaDropped tenantSchema]))
  end.

(** [connection && connection.isInitialized] *)
Definition is_open (h : nat) (w : World) : bool :=
  match dataSources w !! h with
  | Some ds => isInitialized ds
  | None => false
  end.

Definition closeTenantConnection (tenantSchema : string) : Task unit := λ w,
  match tenantConnections w !! tenantSchema with
  | Some h =>
      if is_open h w then
        (Resolved tt,
         mkWorld (tenants w) (idSeq w) (now w) (schemas w)
           (delete tenantSchema (tenantConnections w))
           (set_initialized h false (dataSources w))
           (trace w ++ [Destroyed h]))
      else (Resolved tt, w)
  | None => (Resolved tt, w)
  end.

(** *** Calls in flight

    Node runs one call until it awaits.  A call of [getTenantConnection]
    therefore has two atomic parts, and the parts of different calls may run
    in any order that keeps each call's own order. *)
Inductive Call :=
  | Invoked (tenantSchema : string)
  | Suspended (tenantSchema : string) (connection : nat)
  | Settled (result : Outcome (option nat)).

Definition step_call (initialize : bool) (c : Call) (w : World) : Call * World :=
  match c with
  | Invoked s =>
      match getTenantConnection_enter s w with
      | (Returned r, w') => (Settled (Resolved r), w')
      | (AwaitingInitialize h, w') => (Suspended s h, w')
      end
  | Suspended s h =>
      match getTenantConnection_resume initialize s h w with
      | (r, w') => (Settled r, w')
      end
  | Settled r => (Settled r, w)
  end.

Inductive Caller := First | Second.

(** Runs the two calls under a schedule that names whose part runs next. *)
Fixpoint interleave (initialize : Caller → bool) (schedule : list Caller)
    (a b : Call) (w : World) : Call * Call * World :=
  match schedule with
  | [] => (a, b, w)
  | First :: rest =>
      match step_call (initialize First) a w with
      | (a', w') => interleave initialize rest a' b w'
      end
  | Second :: rest =>
      match step_call (initialize Second) b w with
      | (b', w') => interleave initialize rest a b' w'
      end
  end.

(** The complete schedules of two calls: the second call starts after the
    first has settled, or both have started before either resumes. *)
Definition sequential : list (list Caller) :=
  [[First; First; Second; Second]; [Second; Second; First; First]].

Definition overlapping : list (list Caller) :=
  [[First; Second; First; Second]; [First; Second; Second; First];
   [Second; First; First; Second]; [Second; First; Second; First]].

Definition one_after_the_other : list Caller := [First; First; Second; Second].
Definition both_started : list Caller := [First; Second; First; Second].

(** Physical connections established so far. *)
Definition connections_established (w : World) : nat :=
  length (List.filter (λ e, match e with Connected _ => true | _ => false end)
            (trace w)).

(** [closeAllConnections]: every callback of the [map] reads
    [connection.isInitialized] before any [destroy()] has completed, so all of
    them see the world of the call; after [Promise.all] the map is cleared.
    The destroys are listed in the iteration order of the map, which for a
    [gmap] is not the insertion order of a JavaScript [Map]. *)
Definition closeAllConnections : Task unit := λ w,
  let opened :=
    List.filter (λ e, is_open e.2 w) (map_to_list (tenantConnections w)) in
  (Resolved tt,
   mkWorld (tenants w) (idSeq w) (now w) (schemas w) ∅
     (foldr (λ e l, set_initialized e.2 false l) (dataSources w) opened)
     (trace w ++ List.map (λ e, Destroyed e.2) opened)).

End TenantConnectionService.

(** ** TenantsService *)

Definition or_else {A} (new old : option A) : option A :=
  match new with Some _ => new | None => old end.

(** [Object.assign(tenant, updateTenantDto)]: every field present in the
    draft overwrites the entity's; [schemaName] is not a field of the draft. *)
Definition assign (t : Tenant) (d : UpdateTenantDto.t) : Tenant :=
  mkTenant (id t) (deletedAt t)
    (default (name t) (UpdateTenantDto.name d))
    (default (subdomain t) (UpdateTenantDto.subdomain d))
    (or_else (UpdateTenantDto.domain d) (domain t))
    (schemaName t)
    (default (status t) (UpdateTenantDto.status d))
    (default (subscriptionTier t) (UpdateTenantDto.subscriptionTier d))
    (default (isActive t) (UpdateTenantDto.isActive d))
    (or_else (UpdateTenantDto.description d) (description t))
    (or_else (UpdateTenantDto.logo d) (logo t))
    (or_else (UpdateTenantDto.website d) (website t))
    (or_else (UpdateTenantDto.contactEmail d) (contactEmail t))
    (or_else (UpdateTenantDto.contactPhone d) (contactPhone t))
    (or_else (UpdateTenantDto.settings d) (settings t))
    (or_else (UpdateTenantDto.features d) (features t))
    (default (maxUsers t) (UpdateTenantDto.maxUsers d))
    (default (maxProjects t) (UpdateTenantDto.maxProjects d))
    (default (storageLimit t) (UpdateTenantDto.storageLimit d))
    (storageUsed t)
    (subscriptionStartDate t) (subscriptionEndDate t) (lastActivityAt t).

(** [repository.create({ ...createTenantDto, schemaName, status })]: the entity
    before it is stored.  Columns the draft leaves out take the defaults of
    their [@Column] declaration. *)
Definition new_tenant (d : CreateTenantDto.t) (schemaName : string)
    (status : TenantStatus) : Tenant :=
  mkTenant "" None
    (CreateTenantDto.name d) (CreateTenantDto.subdomain d)
    (CreateTenantDto.domain d) schemaName status
    (default FREE (CreateTenantDto.subscriptionTier d)) true
    (CreateTenantDto.description d) None (CreateTenantDto.website d)
    (CreateTenantDto.contactEmail d) (CreateTenantDto.contactPhone d)
    None None
    (default 5 (CreateTenantDto.maxUsers d))
    (default 10 (CreateTenantDto.maxProjects d))
    (default 1073741824 (CreateTenantDto.storageLimit d))
    0 None None None.

(** [a === b] between a stored, nullable column and an optional draft field. *)
Definition strict_eq (a b : option string) : bool :=
  match a, b with
  | Some x, Some y => String.eqb x y
  | _, _ => false
  end.

(** *** Numbers on their way to a [bigint] column

    [storageUsed] is a JavaScript number and the column is a [bigint]; the
    driver sends the number as its decimal text.  A safe integer arrives as
    it is.  Any other number arrives as the shortest text that identifies
    the double (["1152921504606847000"] for 2^60, ["9223372036854776000"] for
    2^63, ["1.5"], ["1e+21"]), which the column reads as some integer or
    refuses.  What the column makes of such a text is part of the environment
    of the call, like the outcome of a DDL statement: [unsafe] is the integer
    it stores, or [None] when it refuses the text. *)
Definition MAX_SAFE_INTEGER : Z := 2 ^ 53 - 1.

Definition is_safe_integer (n : Z) : bool :=
  (- MAX_SAFE_INTEGER <=? n) && (n <=? MAX_SAFE_INTEGER).

Definition bigint_of_number (n : Z) (unsafe : option Z) : option Z :=
  if is_safe_integer n then Some n else unsafe.

Definition bigint_refused : Exception :=
  QueryFailedError "value is not accepted for type bigint".

Module TenantsService.

Definition create_where (d : CreateTenantDto.t) : list Where :=
  BySubdomain (CreateTenantDto.subdomain d)
  :: match CreateTenantDto.domain d with
     | Some v => if truthy (Some v) then [ByDomain v] else []
     | None => []
     end.

Definition create_check (d : CreateTenantDto.t) : Task unit := λ w,
  match Repository.findOne (create_where d) w with
  | Some existingTenant =>
      if String.eqb (subdomain existingTenant) (CreateTenantDto.subdomain d)
      then throw (ConflictException "Subdomain already exists") w
      else if strict_eq (domain existingTenant) (CreateTenantDto.domain d)
      then throw (ConflictException "Domain already exists") w
      else resolve tt w
  | None => resolve tt w
  end.

(** The second [save] is returned from inside the [try] block without being
    awaited there, so the [catch] only sees a failure of
    [createTenantSchema]. *)
Definition create (db : Ddl) (createTenantDto : CreateTenantDto.t) : Task Tenant :=
  create_check createTenantDto ;;
  let schemaName := "tenant_" +:+ CreateTenantDto.subdomain createTenantDto in
  let tenant := new_tenant createTenantDto schemaName PENDING in
  let* savedTenant := Repository.save tenant in
  try_catch
    (TenantConnectionService.createTenantSchema db schemaName)
    (λ _, Repository.delete (id savedTenant) ;;
          throw (BadRequestException "Failed to create tenant database schema")) ;;
  Repository.save (with_status ACTIVE savedTenant).

Definition findOne (i : string) : Task Tenant := λ w,
  match Repository.findOne [ById i] w with
  | Some tenant => resolve tenant w
  | None =>
      throw (NotFoundException ("Tenant with ID " +:+ i +:+ " not found")) w
  end.

Definition update_where (tenant : Tenant) (d : UpdateTenantDto.t) : list Where :=
  match UpdateTenantDto.subdomain d with
  | Some v =>
      if truthy (Some v) && negb (String.eqb v (subdomain tenant))
      then [BySubdomain v] else []
  | None => []
  end
  ++ match UpdateTenantDto.domain d with
     | Some v =>
         if truthy (Some v) && negb (strict_eq (Some v) (domain tenant))
         then [ByDomain v] else []
     | None => []
     end.

Definition update_check (i : string) (tenant : Tenant) (d : UpdateTenantDto.t)
  : Task unit := λ w,
  if truthy (UpdateTenantDto.subdomain d) || truthy (UpdateTenantDto.domain d) then
    let conflictWhere := update_where tenant d in
    if (0 <? length conflictWhere)%nat then
      match Repository.findOne conflictWhere w with
      | Some existingTenant =>
          if negb (String.eqb (id existingTenant) i)
          then throw (ConflictException "Subdomain or domain already exists") w
          else resolve tt w
      | None => resolve tt w
      end
    else resolve tt w
  else resolve tt w.

Definition update (i : string) (updateTenantDto : UpdateTenantDto.t) : Task Tenant :=
  let* tenant := findOne i in
  update_check i tenant updateTenantDto ;;
  Repository.save (assign tenant updateTenantDto).

Definition remove (db : Ddl) (i : string) : Task unit :=
  let* tenant := findOne i in
  try_catch
    (TenantConnectionService.dropTenantSchema db (schemaName tenant) ;;
     Repository.softDelete i)
    (λ _, throw (BadRequestException "Failed to remove tenant and its data")).

Definition suspend (i : string) : Task Tenant :=
  let* tenant := findOne i in
  Repository.save (with_isActive false (with_status SUSPENDED tenant)).

Definition activate (i : string) : Task Tenant :=
  let* tenant := findOne i in
  Repository.save (with_isActive true (with_status ACTIVE tenant)).

Definition checkSubdomainAvailability (subdomain : string) : Task bool := λ w,
  match Repository.findOne [BySubdomain subdomain] w with
  | Some _ => resolve false w
  | None => resolve true w
  end.

Definition checkDomainAvailability (domain : string) : Task bool := λ w,
  match Repository.findOne [ByDomain domain] w with
  | Some _ => resolve false w
  | None => resolve true w
  end.

(** [find({ where: { isActive: true, status: ACTIVE } })] *)
Definition getActiveTenants : Task (list Tenant) := λ w,
  resolve
    (List.filter
       (λ t, live t && isActive t && bool_decide (status t = ACTIVE))
       (tenants w)) w.

(** [findBySubdomain] and [findByDomain] ask for [cache: true]; the data
    source is configured without a query cache, so they read the table. *)
Definition findBySubdomain (subdomain : string) : Task Tenant := λ w,
  match Repository.findOne [BySubdomain subdomain] w with
  | Some tenant => resolve tenant w
  | None =>
      throw (NotFoundException
               ("Tenant with subdomain " +:+ subdomain +:+ " not found")) w
  end.

Definition findByDomain (domain : string) : Task Tenant := λ w,
  match Repository.findOne [ByDomain domain] w with
  | Some tenant => resolve tenant w
  | None =>
      throw (NotFoundException
               ("Tenant with domain " +:+ domain +:+ " not found")) w
  end.

(** [update(id, { lastActivityAt: new Date() })] *)
Definition updateLastActivity (i : string) : Task unit := λ w,
  Repository.update i (with_lastActivityAt (Some (now w))) w.

Definition updateStorageUsed (i : string) (storageUsed : Z) (unsafe : option Z)
  : Task unit :=
  match bigint_of_number storageUsed unsafe with
  | Some stored => Repository.update i (with_storageUsed stored)
  | None => throw bigint_refused
  end.

End TenantsService.

(** ** TenantService and TenantGuard *)

Module TenantService.

Definition findById (i : string) : Task Tenant :=
  try_catch (TenantsService.findOne i)
    (λ _, throw (NotFoundException ("Tenant with ID " +:+ i +:+ " not found"))).

Definition findByDomain (domain : string) : Task Tenant :=
  try_catch (TenantsService.findByDomain domain)
    (λ _, throw (NotFoundException
                   ("Tenant with domain " +:+ domain +:+ " not found"))).

End TenantService.

(** The part of the HTTP request the guard reads and writes: the
    [x-tenant-id] header and the [tenant] property it attaches. *)
Record Request := mkRequest {
  x_tenant_id : option string;
  tenant : option Tenant
}.

Module TenantGuard.

(** [request.tenant = tenant; return true] inside the [try] block, with the
    [!tenant || !tenant.isActive] gate in front of it. *)
Definition canActivate_try (tenantId : string) (request : Request) (w : World)
  : Outcome bool * Request :=
  match TenantService.findById tenantId w with
  | (Resolved tenant, _) =>
      if negb (isActive tenant)
      then (Rejected (ForbiddenException "Invalid or inactive tenant"), request)
      else (Resolved true, mkRequest (x_tenant_id request) (Some tenant))
  | (Rejected e, _) => (Rejected e, request)
  end.

(** The [catch] block: the guard's own exceptions pass, anything else turns
    into a [ForbiddenException]. *)
Definition canActivate_catch (error : Exception) : Exception :=
  match error with
  | ForbiddenException _ | BadRequestException _ => error
  | _ => ForbiddenException "Tenant validation failed"
  end.

Definition canActivate (request : Request) (w : World) : Outcome bool * Request :=
  match x_tenant_id request with
  | Some tenantId =>
      if truthy (Some tenantId) then
        match canActivate_try tenantId request w with
        | (Resolved b, request') => (Resolved b, request')
        | (Rejected e, request') => (Rejected (canActivate_catch e), request')
        end
      else (Rejected (BadRequestException "Tenant ID is required"), request)
  | None => (Rejected (BadRequestException "Tenant ID is required"), request)
  end.

End TenantGuard.

(** ** TenantsController *)

(** What a handler ends with: a value, an exception of the services, or a
    plain [Error] thrown by the handler itself. *)
Inductive Response (A : Type) :=
  | Ok (value : A)
  | HttpException (error : Exception)
  | PlainError (message : string).
Arguments Ok {A} value.
Arguments HttpException {A} error.
Arguments PlainError {A} message.

Definition respond {A} (r : Outcome A * World) : Response A * World :=
  match r with
  | (Resolved a, w) => (Ok a, w)
  | (Rejected e, w) => (HttpException e, w)
  end.

Module TenantsController.

(** [const { status, isActive, subscriptionTier, maxUsers, maxProjects,
    storageLimit, ...allowedUpdates } = updateTenantDto] *)
Definition allowedUpdates (d : UpdateTenantDto.t) : UpdateTenantDto.t :=
  UpdateTenantDto.mk
    (UpdateTenantDto.name d) (UpdateTenantDto.subdomain d)
    (UpdateTenantDto.domain d) (UpdateTenantDto.description d)
    (UpdateTenantDto.contactEmail d) (UpdateTenantDto.contactPhone d)
    (UpdateTenantDto.website d) None None None None None None
    (UpdateTenantDto.logo d) (UpdateTenantDto.settings d)
    (UpdateTenantDto.features d).

(** [updateCurrentTenant]; [tenantId] is [user.tenantId]. *)
Definition updateCurrentTenant (updateTenantDto : UpdateTenantDto.t)
    (tenantId : option string) (w : World) : Response Tenant * World :=
  match tenantId with
  | Some i =>
      if truthy (Some i)
      then respond (TenantsService.update i (allowedUpdates updateTenantDto) w)
      else (PlainError "User is not associated with a tenant", w)
  | None => (PlainError "User is not associated with a tenant", w)
  end.

End TenantsController.

(** The usability invariant of the data model. *)
Definition usable (t : Tenant) : bool :=
  bool_decide (status t = ACTIVE) && isActive t.

(** ** Sample data *)

Definition world0 : World := mkWorld [] 0 0 ∅ ∅ [] [].

Definition acme : CreateTenantDto.t :=
  CreateTenantDto.mk "Acme Corporation" "acme" (Some "acme.com")
    None None None None None None None None.

(** The directory after [acme] has been provisioned. *)
Definition w_acme : World := snd (TenantsService.create DdlOk acme world0).

(** ... and after an administrator set its status through [update], which
    leaves [isActive] as it was. *)
Definition status_suspended : UpdateTenantDto.t :=
  UpdateTenantDto.mk None None None None None None None None None None None
    (Some SUSPENDED) None None None None.

Definition w_acme_suspended : World :=
  snd (TenantsService.update "0" status_suspended w_acme).

(** ... and with a connection to its schema in the cache. *)
Definition w_acme_connected : World :=
  snd (TenantConnectionService.getTenantConnection true "tenant_acme" w_acme).

(** Two drafts that both carry the empty string as their domain. *)
Definition blank_one : CreateTenantDto.t :=
  CreateTenantDto.mk "One" "one" (Some "") None None None None None None None None.

Definition blank_two : CreateTenantDto.t :=
  CreateTenantDto.mk "Two" "two" (Some "") None None None None None None None None.

Definition w_blank : World := snd (TenantsService.create DdlOk blank_one world0).

(** A draft that moves a tenant to another subdomain. *)
Definition rename_to_acme2 : UpdateTenantDto.t :=
  UpdateTenantDto.mk None (Some "acme2") None None None None None None None None
    None None None None None None.

(** ** Well-formed tables

    Every id in the table came from the generator, and, [id] being the primary
    key, no two rows share one. *)
Definition ids_generated (w : World) : bool :=
  forallb
    (λ r, existsb (λ k, String.eqb (id r) (uuid k)) (seq 0 (idSeq w)))
    (tenants w).

Definition primary_key (w : World) : Prop := NoDup (id <$> tenants w).

(** The schema name each row is stored with. *)
Definition schema_names (w : World) : list (string * string) :=
  (λ t, (id t, schemaName t)) <$> tenants w.

(** The row [create] stores first: the draft under the next generated id, in
    [PENDING], with the schema name derived from the subdomain. *)
Definition pending_row (d : CreateTenantDto.t) (w : World) : Tenant :=
  with_id (uuid (idSeq w))
    (new_tenant d ("tenant_" +:+ CreateTenantDto.subdomain d) PENDING).

(** No two rows share a subdomain, a domain or a schema name. *)
Definition unique_columns (w : World) : Prop :=
  ∀ r1 r2, r1 ∈ tenants w → r2 ∈ tenants w → collides r1 r2 = false.

Definition table_ok (w : World) : Prop :=
  ids_generated w = true ∧ primary_key w ∧ unique_columns w.

(** Every entry of the cache refers to an open [DataSource] that was built
    for the schema of its key. *)
Definition registry_ok (w : World) : Prop :=
  ∀ s h, tenantConnections w !! s = Some h →
    ∃ ds, dataSources w !! h = Some ds ∧ schema ds = s ∧ isInitialized ds = true.

(** The calls of the two services, with the outcome of their DDL statement or
    of [initialize()] where they have one. *)
Inductive Command :=
  | Create (db : Ddl) (d : CreateTenantDto.t)
  | Update (i : string) (d : UpdateTenantDto.t)
  | UpdateCurrent (d : UpdateTenantDto.t) (tenantId : option string)
  | Suspend (i : string)
  | Activate (i : string)
  | Remove (db : Ddl) (i : string)
  | UpdateLastActivity (i : string)
  | UpdateStorageUsed (i : string) (n : Z) (unsafe : option Z)
  | GetTenantConnection (initialize : bool) (s : string)
  | CreateTenantSchema (db : Ddl) (s : string)
  | DropTenantSchema (db : Ddl) (s : string)
  | CloseTenantConnection (s : string)
  | CloseAllConnections.

Definition exec (c : Command) (w : World) : World :=
  match c with
  | Create db d => snd (TenantsService.create db d w)
  | Update i d => snd (TenantsService.update i d w)
  | UpdateCurrent d u => snd (TenantsController.updateCurrentTenant d u w)
  | Suspend i => snd (TenantsService.suspend i w)
  | Activate i => snd (TenantsService.activate i w)
  | Remove db i => snd (TenantsService.remove db i w)
  | UpdateLastActivity i => snd (TenantsService.updateLastActivity i w)
  | UpdateStorageUsed i n unsafe =>
      snd (TenantsService.updateStorageUsed i n unsafe w)
  | GetTenantConnection b s => snd (TenantConnectionService.getTenantConnection b s w)
  | CreateTenantSchema db s => snd (TenantConnectionService.createTenantSchema db s w)
  | DropTenantSchema db s => snd (TenantConnectionService.dropTenantSchema db s w)
  | CloseTenantConnection s => snd (TenantConnectionService.closeTenantConnection s w)
  | CloseAllConnections => snd (TenantConnectionService.closeAllConnections w)
  end.

Definition run (cs : list Command) (w : World) : World :=
  foldl (λ w c, exec c w) w cs.

(** The body of a [PATCH] that names no field. *)
Definition empty_draft : UpdateTenantDto.t :=
  UpdateTenantDto.mk None None None None None None None None None None None
    None None None None None.

(** How many of the two callers could connect. *)
Definition connected (initialize : TenantConnectionService.Caller → bool) : nat :=
  ((if initialize TenantConnectionService.First then 1 else 0)
   + (if initialize TenantConnectionService.Second then 1 else 0))%nat.

(** [isInitialized] of the object behind a handle, in a list of objects. *)
Definition open_at (l : list DataSource) (h : nat) : bool :=
  match l !! h with
  | Some ds => isInitialized ds
  | None => false
  end.

(** An invariant that a task keeps, however it ends. *)
Definition keeps {A} (I : World → Prop) (m : Task A) : Prop :=
  ∀ w, I w → I (snd (m w)).

(** The request of the guard for a tenant id. *)
Definition request_for (i : string) : Request := mkRequest (Some i) None.

(** * Properties *)

(** ** Lookups *)

Lemma findOne_Some conditions w t :
  Repository.findOne conditions w = Some t →
  t ∈ tenants w ∧ live t = true ∧ existsb (matches t) conditions = true.
Proof.
  unfold Repository.findOne. intros H.
  apply find_some in H as [Hin Hp].
  apply andb_true_iff in Hp as [? ?].
  split; [by apply list_elem_of_In|done].
Qed.

Lemma findOne_None conditions w t :
  Repository.findOne conditions w = None →
  t ∈ tenants w → live t = true → existsb (matches t) conditions = false.
Proof.
  unfold Repository.findOne. intros H Hin Hl.
  apply list_elem_of_In in Hin.
  pose proof (find_none _ _ H _ Hin) as Hp. simpl in Hp.
  rewrite Hl in Hp. done.
Qed.

Lemma findOne_is_Some conditions w t :
  t ∈ tenants w → live t = true → existsb (matches t) conditions = true →
  ∃ t', Repository.findOne conditions w = Some t'.
Proof.
  intros Hin Hl Hm.
  destruct (Repository.findOne conditions w) as [t'|] eqn:E; [by eexists|].
  rewrite (findOne_None _ _ _ E Hin Hl) in Hm. done.
Qed.

Lemma findOne_ById i w t :
  Repository.findOne [ById i] w = Some t → id t = i ∧ t ∈ tenants w ∧ live t = true.
Proof.
  intros H. apply findOne_Some in H as (? & ? & Hm).
  simpl in Hm. rewrite orb_false_r in Hm. apply String.eqb_eq in Hm. done.
Qed.

Lemma service_findOne_found i w t :
  Repository.findOne [ById i] w = Some t →
  TenantsService.findOne i w = (Resolved t, w).
Proof. intros H. unfold TenantsService.findOne. by rewrite H. Qed.

Lemma service_findOne_missing i w :
  Repository.findOne [ById i] w = None →
  TenantsService.findOne i w
  = (Rejected (NotFoundException ("Tenant with ID " +:+ i +:+ " not found")), w).
Proof. intros H. unfold TenantsService.findOne. by rewrite H. Qed.

(** ** Removal (C4, C10) *)

Lemma softDelete_hides i w :
  Repository.findOne [ById i] (snd (Repository.softDelete i w)) = None.
Proof.
  unfold Repository.findOne, Repository.softDelete. simpl.
  destruct (List.find _ _) as [x|] eqn:Hx; [|done]. exfalso.
  apply find_some in Hx as [Hin Hp].
  apply in_map_iff in Hin as (r & <- & _).
  apply andb_true_iff in Hp as [Hl Hm].
  cbn [existsb matches] in Hm. rewrite orb_false_r in Hm.
  unfold has_id in *. destruct (String.eqb (id r) i) eqn:Hr.
  - simpl in Hl. discriminate Hl.
  - rewrite Hr in Hm. discriminate Hm.
Qed.

(** C4. When the schema-drop DDL fails, wherever it fails, [remove] rejects
    with its error and the whole world is as before: the tenant row is not
    tombstoned and keeps its status ([ACTIVE] if it was), and the schema set
    and the connection cache are untouched.  The removal can be retried in
    place: once the DDL goes through, the same call drops the schema and
    tombstones the row, which lookups then no longer find. *)
Theorem remove_aborts_when_drop_fails (db : Ddl) (i : string) (t : Tenant) (w : World) :
  db ≠ DdlOk →
  Repository.findOne [ById i] w = Some t →
  TenantsService.remove db i w
  = (Rejected (BadRequestException "Failed to remove tenant and its data"), w)
  ∧ ∃ w',
      TenantsService.remove DdlOk i w = (Resolved tt, w')
      ∧ (schemaName t ∉ schemas w')
      ∧ Repository.findOne [ById i] w' = None.
Proof.
  intros Hdb Hfind. split.
  - unfold TenantsService.remove, await, try_catch.
    rewrite (service_findOne_found _ _ _ Hfind).
    destruct db; [done|..]; reflexivity.
  - unfold TenantsService.remove, await, try_catch.
    rewrite (service_findOne_found _ _ _ Hfind).
    unfold TenantConnectionService.dropTenantSchema.
    set (w1 := mkWorld _ _ _ _ _ _ _).
    exists (snd (Repository.softDelete i w1)). split; [done|]. split.
    + simpl. rewrite elem_of_difference, elem_of_singleton. tauto.
    + apply softDelete_hides.
Qed.

Lemma remove_aborts_when_drop_fails_witness :
  TenantsService.remove QueryFails "0" w_acme
  = (Rejected (BadRequestException "Failed to remove tenant and its data"), w_acme)
  ∧ (∃ t, Repository.findOne [ById "0"] w_acme = Some t ∧ status t = ACTIVE).
Proof.
  split.
  - eapply (remove_aborts_when_drop_fails QueryFails "0"); [done|].
    vm_compute. reflexivity.
  - eexists. split; [vm_compute; reflexivity|reflexivity].
Defined.

(** ** The connection cache (C6, C9, C10, C2) *)

Section registry.
Import TenantConnectionService.

Lemma set_initialized_lookup h b l ds :
  l !! h = Some ds →
  set_initialized h b l !! h = Some (mkDataSource (schema ds) b).
Proof.
  intros H. unfold set_initialized. rewrite H.
  apply list_lookup_insert_eq. by eapply lookup_lt_Some.
Qed.

Lemma set_initialized_lookup_ne h h' b l :
  h ≠ h' → set_initialized h b l !! h' = l !! h'.
Proof.
  intros H. unfold set_initialized. destruct (l !! h); [|done].
  by apply list_lookup_insert_ne.
Qed.

Lemma is_open_set_initialized h b w w' :
  is_Some (dataSources w !! h) →
  dataSources w' = set_initialized h b (dataSources w) →
  is_open h w' = b.
Proof.
  intros [ds Hds] Heq. unfold is_open.
  by rewrite Heq, (set_initialized_lookup _ _ _ _ Hds).
Qed.

Lemma is_open_Some h w :
  is_open h w = true → is_Some (dataSources w !! h).
Proof. unfold is_open. destruct (dataSources w !! h); [eauto|done]. Qed.

(** What a call does when the schema is not cached and the connection can
    be established. *)
Lemma getTenantConnection_miss s w :
  tenantConnections w !! s = None →
  getTenantConnection true s w
  = (Resolved (Some (length (dataSources w))),
     mkWorld (tenants w) (idSeq w) (now w) (schemas w)
       (<[s := length (dataSources w)]> (tenantConnections w))
       (dataSources w ++ [mkDataSource s true])
       (trace w ++ [Connected (length (dataSources w))])).
Proof.
  intros H. unfold getTenantConnection, getTenantConnection_enter.
  rewrite H. unfold getTenantConnection_resume. simpl.
  do 2 f_equal. unfold set_initialized.
  rewrite lookup_app_r, Nat.sub_diag by done. simpl.
  rewrite insert_app_r_alt, Nat.sub_diag by done. done.
Qed.

End registry.

(** C6. A call for an uncached schema whose initialization fails rejects with
    the driver's error, leaves the cache exactly as it was, so still without
    an entry for the schema, and establishes nothing; the next call for the
    same schema builds a connection again and, if that one initializes,
    caches and returns it. *)
Theorem getTenantConnection_failure_is_not_cached (s : string) (w : World) :
  tenantConnections w !! s = None →
  ∃ e w',
    TenantConnectionService.getTenantConnection false s w = (Rejected e, w')
    ∧ tenantConnections w' = tenantConnections w
    ∧ tenantConnections w' !! s = None
    ∧ TenantConnectionService.connections_established w'
      = TenantConnectionService.connections_established w
    ∧ ∃ h w'',
        TenantConnectionService.getTenantConnection true s w'
        = (Resolved (Some h), w'')
        ∧ tenantConnections w'' !! s = Some h
        ∧ TenantConnectionService.is_open h w'' = true
        ∧ TenantConnectionService.connections_established w''
          = S (TenantConnectionService.connections_established w').
Proof.
  intros Hmiss.
  unfold TenantConnectionService.getTenantConnection at 1.
  unfold TenantConnectionService.getTenantConnection_enter. rewrite Hmiss.
  simpl. do 2 eexists. split; [reflexivity|]. simpl.
  split_and!; [done..|].
  do 2 eexists. split.
  { by apply getTenantConnection_miss. }
  simpl. split_and!.
  - apply lookup_insert_eq.
  - unfold TenantConnectionService.is_open. simpl.
    rewrite lookup_app_r, Nat.sub_diag by done. done.
  - unfold TenantConnectionService.connections_established. simpl.
    rewrite List.filter_app, length_app. simpl. lia.
Qed.

Lemma getTenantConnection_failure_is_not_cached_witness :
  ∃ e w',
    TenantConnectionService.getTenantConnection false "tenant_acme" w_acme
    = (Rejected e, w')
    ∧ tenantConnections w' = tenantConnections w_acme.
Proof.
  destruct (getTenantConnection_failure_is_not_cached "tenant_acme" w_acme)
    as (e & w' & H1 & H2 & _).
  { vm_compute. reflexivity. }
  exists e, w'. split; assumption.
Defined.

Lemma closeTenantConnection_absent s w :
  tenantConnections w !! s = None →
  TenantConnectionService.closeTenantConnection s w = (Resolved tt, w).
Proof.
  intros H. unfold TenantConnectionService.closeTenantConnection. by rewrite H.
Qed.

Lemma closeTenantConnection_closed s h w :
  tenantConnections w !! s = Some h →
  TenantConnectionService.is_open h w = false →
  TenantConnectionService.closeTenantConnection s w = (Resolved tt, w).
Proof.
  intros H Hc. unfold TenantConnectionService.closeTenantConnection.
  by rewrite H, Hc.
Qed.

Lemma closeTenantConnection_open s h w :
  tenantConnections w !! s = Some h →
  TenantConnectionService.is_open h w = true →
  TenantConnectionService.closeTenantConnection s w
  = (Resolved tt,
     mkWorld (tenants w) (idSeq w) (now w) (schemas w)
       (delete s (tenantConnections w))
       (set_initialized h false (dataSources w))
       (trace w ++ [Destroyed h])).
Proof.
  intros H Hc. unfold TenantConnectionService.closeTenantConnection.
  by rewrite H, Hc.
Qed.

(** C9. [closeTenantConnection] on a cached, open connection destroys it and
    removes the entry of the schema; on a schema without entry, or whose
    cached connection is already closed, it changes nothing; and calling it a
    second time changes nothing more than the first call did. *)
Theorem closeTenantConnection_idempotent (s : string) (w : World) :
  let w1 := snd (TenantConnectionService.closeTenantConnection s w) in
  fst (TenantConnectionService.closeTenantConnection s w) = Resolved tt
  ∧ (∀ h, tenantConnections w !! s = Some h →
          TenantConnectionService.is_open h w = true →
          tenantConnections w1 = delete s (tenantConnections w)
          ∧ tenantConnections w1 !! s = None
          ∧ TenantConnectionService.is_open h w1 = false
          ∧ trace w1 = trace w ++ [Destroyed h])
  ∧ (tenantConnections w !! s = None → w1 = w)
  ∧ (∀ h, tenantConnections w !! s = Some h →
          TenantConnectionService.is_open h w = false → w1 = w)
  ∧ TenantConnectionService.closeTenantConnection s w1 = (Resolved tt, w1).
Proof.
  simpl. split_and!.
  - unfold TenantConnectionService.closeTenantConnection.
    destruct (tenantConnections w !! s); [|done].
    by destruct (TenantConnectionService.is_open _ _).
  - intros h Hs Ho. rewrite (closeTenantConnection_open _ _ _ Hs Ho). simpl.
    split_and!; [done|apply lookup_delete_eq| |done].
    eapply is_open_set_initialized; [|done].
    by apply is_open_Some.
  - intros Hs. by rewrite closeTenantConnection_absent.
  - intros h Hs Ho. by rewrite (closeTenantConnection_closed _ _ _ Hs Ho).
  - destruct (tenantConnections w !! s) as [h|] eqn:Hs.
    + destruct (TenantConnectionService.is_open h w) eqn:Ho.
      * rewrite (closeTenantConnection_open _ _ _ Hs Ho). simpl.
        apply closeTenantConnection_absent. simpl. apply lookup_delete_eq.
      * rewrite (closeTenantConnection_closed _ _ _ Hs Ho). simpl.
        by apply (closeTenantConnection_closed _ h).
    + rewrite (closeTenantConnection_absent _ _ Hs). simpl.
      by apply closeTenantConnection_absent.
Qed.

Lemma closeTenantConnection_idempotent_witness :
  tenantConnections w_acme_connected !! "tenant_acme" = Some 0%nat
  ∧ tenantConnections
      (snd (TenantConnectionService.closeTenantConnection "tenant_acme"
              w_acme_connected)) !! "tenant_acme" = None
  ∧ snd (TenantConnectionService.closeTenantConnection "tenant_acme" w_acme) = w_acme.
Proof.
  pose proof (closeTenantConnection_idempotent "tenant_acme" w_acme_connected)
    as (_ & Hopen & _).
  pose proof (closeTenantConnection_idempotent "tenant_acme" w_acme)
    as (_ & _ & Habsent & _).
  split_and!.
  - vm_compute. reflexivity.
  - apply (Hopen 0%nat); vm_compute; reflexivity.
  - apply Habsent. vm_compute. reflexivity.
Defined.

(** C10. A successful [remove] of a tenant whose schema has an open connection
    in the cache drops the schema, tombstones the row and deletes the entry
    from the cache map, but never destroys the connection: no [Destroyed]
    effect is issued, the data source objects are as before, the handle is
    still open, and no entry of the cache refers to it any more, so that
    [closeTenantConnection] can no longer reach it.  On the same world
    [closeTenantConnection] is the operation that destroys the connection and
    removes the entry. *)
Theorem remove_evicts_without_closing (i : string) (t : Tenant) (h : nat) (w : World) :
  Repository.findOne [ById i] w = Some t →
  tenantConnections w !! schemaName t = Some h →
  TenantConnectionService.is_open h w = true →
  (∀ s, tenantConnections w !! s = Some h → s = schemaName t) →
  (∃ w',
      TenantsService.remove DdlOk i w = (Resolved tt, w')
      ∧ tenantConnections w' = delete (schemaName t) (tenantConnections w)
      ∧ trace w' = trace w ++ [SchemaDropped (schemaName t); SoftDeleted i]
      ∧ dataSources w' = dataSources w
      ∧ TenantConnectionService.is_open h w' = true
      ∧ (∀ s, tenantConnections w' !! s ≠ Some h)
      ∧ TenantConnectionService.closeTenantConnection (schemaName t) w'
        = (Resolved tt, w'))
  ∧ (∃ w'',
      TenantConnectionService.closeTenantConnection (schemaName t) w
      = (Resolved tt, w'')
      ∧ tenantConnections w'' = delete (schemaName t) (tenantConnections w)
      ∧ trace w'' = trace w ++ [Destroyed h]
      ∧ TenantConnectionService.is_open h w'' = false).
Proof.
  intros Hfind Hs Ho Honly. split.
  - unfold TenantsService.remove, await, try_catch.
    rewrite (service_findOne_found _ _ _ Hfind). simpl.
    eexists. split; [reflexivity|]. simpl.
    split_and!; [done|by rewrite <- app_assoc|done|done| |].
    + intros s Hs'. destruct (decide (s = schemaName t)) as [->|Hne].
      * by rewrite lookup_delete_eq in Hs'.
      * rewrite lookup_delete_ne in Hs' by done. by apply Honly in Hs'.
    + apply closeTenantConnection_absent. simpl. apply lookup_delete_eq.
  - rewrite (closeTenantConnection_open _ _ _ Hs Ho).
    eexists. split; [reflexivity|]. simpl. split_and!; [done..|].
    eapply is_open_set_initialized; [|done]. by apply is_open_Some.
Qed.

Lemma remove_evicts_without_closing_witness :
  ∃ w',
    TenantsService.remove DdlOk "0" w_acme_connected = (Resolved tt, w')
    ∧ tenantConnections w' !! "tenant_acme" = None
    ∧ TenantConnectionService.is_open 0 w' = true.
Proof.
  destruct (remove_evicts_without_closing "0"
              (with_status ACTIVE
                 (with_id "0" (new_tenant acme "tenant_acme" PENDING)))
              0%nat w_acme_connected)
    as [(w' & Hr & Hc & _ & _ & Ho & _) _].
  - vm_compute. reflexivity.
  - vm_compute. reflexivity.
  - vm_compute. reflexivity.
  - intros s Hs. simpl.
    destruct (decide (s = "tenant_acme")) as [->|Hne]; [done|].
    exfalso. revert Hs. unfold w_acme_connected.
    rewrite getTenantConnection_miss by (vm_compute; reflexivity).
    simpl. rewrite lookup_insert_ne by done. vm_compute. discriminate.
  - exists w'. split_and!; [done| |done].
    rewrite Hc. apply lookup_delete_eq.
Defined.

Section two_calls.
Import TenantConnectionService.

Lemma lookup_snoc_last {A} (l : list A) (x : A) : (l ++ [x]) !! length l = Some x.
Proof. by rewrite lookup_app_r, Nat.sub_diag. Qed.

Lemma lookup_snoc2_first {A} (l : list A) (x y : A) :
  ((l ++ [x]) ++ [y]) !! length l = Some x.
Proof.
  rewrite lookup_app_l by (rewrite length_app; simpl; lia).
  apply lookup_snoc_last.
Qed.

Lemma lookup_snoc2_last {A} (l : list A) (x y : A) :
  ((l ++ [x]) ++ [y]) !! S (length l) = Some y.
Proof.
  replace (S (length l)) with (length (l ++ [x])) by (rewrite length_app; simpl; lia).
  apply lookup_snoc_last.
Qed.

Lemma is_open_intro h w ds :
  dataSources w !! h = Some ds → isInitialized ds = true → is_open h w = true.
Proof. intros H1 H2. unfold is_open. by rewrite H1. Qed.

End two_calls.

Ltac lookup_ds :=
  first
    [ apply lookup_snoc_last
    | apply lookup_snoc2_first
    | apply lookup_snoc2_last
    | rewrite set_initialized_lookup_ne by lia; lookup_ds
    | eapply set_initialized_lookup; lookup_ds ].

Ltac solve_open := eapply is_open_intro; [simpl; lookup_ds|reflexivity].

Ltac count_connections :=
  unfold TenantConnectionService.connections_established; simpl;
  rewrite !List.filter_app, !length_app; simpl; lia.

Ltac run_calls H :=
  simpl; unfold TenantConnectionService.getTenantConnection_enter;
  rewrite ?H; simpl; rewrite ?lookup_insert_eq; simpl; rewrite ?H; simpl;
  rewrite ?length_app; simpl length; rewrite ?Nat.add_1_r.

(** C2, as the code has it.  For two calls of [getTenantConnection] with the
    same schema that is not cached yet, both of which can connect: when the
    second call starts after the first has settled, one physical connection
    is established and both callers get the same open handle, which is the
    cached one; when both calls have started before either resumes from
    [await connection.initialize()], each call establishes a connection of
    its own, the callers get different open handles, and the cache keeps one
    of the two. *)
Theorem getTenantConnection_pair (s : string) (w : World) :
  tenantConnections w !! s = None →
  (∀ schedule, schedule ∈ TenantConnectionService.sequential →
     ∃ h w',
       TenantConnectionService.interleave (λ _, true) schedule
         (TenantConnectionService.Invoked s) (TenantConnectionService.Invoked s) w
       = (TenantConnectionService.Settled (Resolved (Some h)),
          TenantConnectionService.Settled (Resolved (Some h)), w')
       ∧ TenantConnectionService.connections_established w'
         = S (TenantConnectionService.connections_established w)
       ∧ TenantConnectionService.is_open h w' = true
       ∧ tenantConnections w' !! s = Some h)
  ∧ (∀ schedule, schedule ∈ TenantConnectionService.overlapping →
     ∃ a b w',
       TenantConnectionService.interleave (λ _, true) schedule
         (TenantConnectionService.Invoked s) (TenantConnectionService.Invoked s) w
       = (TenantConnectionService.Settled (Resolved (Some a)),
          TenantConnectionService.Settled (Resolved (Some b)), w')
       ∧ a ≠ b
       ∧ TenantConnectionService.connections_established w'
         = S (S (TenantConnectionService.connections_established w))
       ∧ TenantConnectionService.is_open a w' = true
       ∧ TenantConnectionService.is_open b w' = true
       ∧ (tenantConnections w' !! s = Some a ∨ tenantConnections w' !! s = Some b)).
Proof.
  intros Hmiss. split; intros schedule Hin.
  - repeat (apply elem_of_cons in Hin as [->|Hin]); [..|by apply elem_of_nil in Hin].
    all: run_calls Hmiss.
    all: do 2 eexists; (split; [reflexivity|]); simpl.
    all: split_and!; [count_connections|solve_open|apply lookup_insert_eq].
  - repeat (apply elem_of_cons in Hin as [->|Hin]); [..|by apply elem_of_nil in Hin].
    all: run_calls Hmiss.
    all: do 3 eexists; (split; [reflexivity|]); simpl.
    all: split_and!; [lia|count_connections|solve_open|solve_open|].
    all: first [left; apply lookup_insert_eq|right; apply lookup_insert_eq].
Qed.

Lemma getTenantConnection_pair_witness :
  ∃ h w',
    TenantConnectionService.interleave (λ _, true)
      TenantConnectionService.one_after_the_other
      (TenantConnectionService.Invoked "tenant_acme")
      (TenantConnectionService.Invoked "tenant_acme") w_acme
    = (TenantConnectionService.Settled (Resolved (Some h)),
       TenantConnectionService.Settled (Resolved (Some h)), w')
    ∧ TenantConnectionService.connections_established w' = 1%nat.
Proof.
  destruct (getTenantConnection_pair "tenant_acme" w_acme) as [Hseq _].
  { vm_compute. reflexivity. }
  destruct (Hseq TenantConnectionService.one_after_the_other)
    as (h & w' & Hrun & Hn & _).
  { apply list_elem_of_here. }
  exists h, w'. split; [exact Hrun|]. rewrite Hn. vm_compute. reflexivity.
Defined.

(** C2, as the spec states it, fails: on an empty cache two overlapping calls
    for ["tenant_acme"] settle with two different handles, after two physical
    connections were established. *)
Lemma getTenantConnection_overlap_connects_twice :
  tenantConnections world0 !! "tenant_acme" = None
  ∧ ∃ w',
      TenantConnectionService.interleave (λ _, true)
        TenantConnectionService.both_started
        (TenantConnectionService.Invoked "tenant_acme")
        (TenantConnectionService.Invoked "tenant_acme") world0
      = (TenantConnectionService.Settled (Resolved (Some 0%nat)),
         TenantConnectionService.Settled (Resolved (Some 1%nat)), w')
      ∧ TenantConnectionService.connections_established w' = 2%nat
      ∧ trace w' = [Connected 0; Connected 1]
      ∧ TenantConnectionService.is_open 0 w' = true
      ∧ TenantConnectionService.is_open 1 w' = true.
Proof.
  split; [reflexivity|]. eexists. split; [vm_compute; reflexivity|].
  vm_compute. done.
Qed.

(** ** The guard (C1) *)

Lemma findById_found i w t :
  Repository.findOne [ById i] w = Some t →
  TenantService.findById i w = (Resolved t, w).
Proof.
  intros H. unfold TenantService.findById, try_catch.
  by rewrite (service_findOne_found _ _ _ H).
Qed.

Lemma findById_missing i w :
  Repository.findOne [ById i] w = None →
  TenantService.findById i w
  = (Rejected (NotFoundException ("Tenant with ID " +:+ i +:+ " not found")), w).
Proof.
  intros H. unfold TenantService.findById, try_catch.
  by rewrite (service_findOne_missing _ _ H).
Qed.

(** Without the header, or with an empty one, the guard rejects with a
    validation error before any lookup. *)
Lemma canActivate_missing_header request w :
  truthy (x_tenant_id request) = false →
  TenantGuard.canActivate request w
  = (Rejected (BadRequestException "Tenant ID is required"), request).
Proof.
  intros H. unfold TenantGuard.canActivate.
  destruct (x_tenant_id request) as [i|]; [|done]. by rewrite H.
Qed.

(** An id that no live row carries is an authorization failure. *)
Lemma canActivate_unknown i request w :
  x_tenant_id request = Some i → i ≠ "" →
  Repository.findOne [ById i] w = None →
  TenantGuard.canActivate request w
  = (Rejected (ForbiddenException "Tenant validation failed"), request).
Proof.
  intros Hh Hi Hf. unfold TenantGuard.canActivate, TenantGuard.canActivate_try.
  rewrite Hh. apply String.eqb_neq in Hi. simpl. rewrite Hi. simpl.
  by rewrite (findById_missing _ _ Hf).
Qed.

(** The gate of the guard is the [isActive] flag alone: a row whose flag is
    cleared is rejected and nothing is attached ... *)
Lemma canActivate_inactive i t request w :
  x_tenant_id request = Some i → i ≠ "" →
  Repository.findOne [ById i] w = Some t →
  isActive t = false →
  TenantGuard.canActivate request w
  = (Rejected (ForbiddenException "Invalid or inactive tenant"), request).
Proof.
  intros Hh Hi Hf Ha. unfold TenantGuard.canActivate, TenantGuard.canActivate_try.
  rewrite Hh. apply String.eqb_neq in Hi. simpl. rewrite Hi. simpl.
  by rewrite (findById_found _ _ _ Hf), Ha.
Qed.

(** ... and a row whose flag is set is admitted whatever its status. *)
Lemma canActivate_flag_set i t request w :
  x_tenant_id request = Some i → i ≠ "" →
  Repository.findOne [ById i] w = Some t →
  isActive t = true →
  TenantGuard.canActivate request w
  = (Resolved true, mkRequest (Some i) (Some t)).
Proof.
  intros Hh Hi Hf Ha. unfold TenantGuard.canActivate, TenantGuard.canActivate_try.
  rewrite Hh. apply String.eqb_neq in Hi. simpl. rewrite Hi. simpl.
  by rewrite (findById_found _ _ _ Hf), Ha.
Qed.

(** A tenant suspended through [suspend] is rejected. *)
Lemma canActivate_after_suspend :
  TenantGuard.canActivate (mkRequest (Some "0") None)
    (snd (TenantsService.suspend "0" w_acme))
  = (Rejected (ForbiddenException "Invalid or inactive tenant"),
     mkRequest (Some "0") None).
Proof. vm_compute. reflexivity. Qed.

(** C1 does not hold of the guard: [acme], whose status an administrator has
    set to [SUSPENDED] through [update], is a known tenant that is not usable,
    and a request carrying its id passes the guard with the tenant attached. *)
Theorem canActivate_admits_suspended_status :
  ∃ t,
    Repository.findOne [ById "0"] w_acme_suspended = Some t
    ∧ status t = SUSPENDED
    ∧ usable t = false
    ∧ TenantGuard.canActivate (mkRequest (Some "0") None) w_acme_suspended
      = (Resolved true, mkRequest (Some "0") (Some t))
    ∧ TenantsService.getActiveTenants w_acme_suspended
      = (Resolved [], w_acme_suspended).
Proof.
  eexists. split; [vm_compute; reflexivity|].
  split_and!; vm_compute; reflexivity.
Qed.

(** ** Generated ids *)

Lemma find_app_none {A} (f : A → bool) (l l' : list A) :
  (∀ x, x ∈ l → f x = false) → List.find f (l ++ l') = List.find f l'.
Proof.
  induction l as [|x l IH]; intros H; [done|]. simpl.
  rewrite (H x) by apply list_elem_of_here.
  apply IH. intros y Hy. apply H. by apply list_elem_of_further.
Qed.


Lemma pretty_N_go_nonempty (x : N) (s : string) : s ≠ "" → pretty_N_go x s ≠ "".
Proof.
  revert s. induction (N.lt_wf_0 x) as [x _ IH]; intros s Hs.
  assert (x = 0 ∨ 0 < x)%N as [->|Hx] by lia.
  - by rewrite pretty_N_go_0.
  - rewrite pretty_N_go_step by done. apply IH; [by apply N.div_lt|done].
Qed.

Lemma uuid_nonempty n : uuid n ≠ "".
Proof.
  unfold uuid, pretty, pretty_nat, pretty, pretty_N.
  case_decide; [done|].
  rewrite pretty_N_go_step by lia. by apply pretty_N_go_nonempty.
Qed.

Lemma uuid_inj n m : uuid n = uuid m → n = m.
Proof. unfold uuid. apply (inj pretty). Qed.

Lemma ids_generated_elem w r :
  ids_generated w = true → r ∈ tenants w →
  ∃ k, (k < idSeq w)%nat ∧ id r = uuid k.
Proof.
  unfold ids_generated. intros H Hin.
  rewrite forallb_forall in H. apply list_elem_of_In in Hin.
  specialize (H _ Hin). apply existsb_exists in H as (k & Hk & Heq).
  apply in_seq in Hk. apply String.eqb_eq in Heq. exists k. split; [lia|done].
Qed.

Lemma has_id_absent w i :
  ids_generated w = true →
  (i = "" ∨ ∃ k, (idSeq w ≤ k)%nat ∧ i = uuid k) →
  ∀ r, r ∈ tenants w → has_id i r = false.
Proof.
  intros Hw Hi r Hin. unfold has_id. apply String.eqb_neq. intros Heq.
  destruct (ids_generated_elem _ _ Hw Hin) as (k & Hk & Hid).
  destruct Hi as [->|(k' & Hk' & ->)].
  - rewrite Hid in Heq. by apply uuid_nonempty in Heq.
  - rewrite Hid in Heq. apply uuid_inj in Heq. lia.
Qed.

Lemma existsb_has_id_absent w i :
  ids_generated w = true →
  (i = "" ∨ ∃ k, (idSeq w ≤ k)%nat ∧ i = uuid k) →
  existsb (has_id i) (tenants w) = false.
Proof.
  intros Hw Hi. apply not_true_is_false. intros H.
  apply existsb_exists in H as (r & Hin & Hr).
  apply list_elem_of_In in Hin.
  by rewrite (has_id_absent _ _ Hw Hi r Hin) in Hr.
Qed.

Lemma filter_absent_id rows i :
  (∀ r, r ∈ rows → has_id i r = false) →
  List.filter (λ r, negb (has_id i r)) rows = rows.
Proof.
  induction rows as [|r rows IH]; intros H; [done|]. simpl.
  rewrite (H r) by apply list_elem_of_here. simpl.
  f_equal. apply IH. intros r' Hr'. apply H. by apply list_elem_of_further.
Qed.

Lemma replace_row_absent rows e :
  (∀ r, r ∈ rows → has_id (id e) r = false) → replace_row e rows = rows.
Proof.
  unfold replace_row.
  induction rows as [|r rows IH]; intros H; [done|]. simpl.
  rewrite (H r) by apply list_elem_of_here.
  f_equal. apply IH. intros r' Hr'. apply H. by apply list_elem_of_further.
Qed.

Lemma has_id_refl e : has_id (id e) e = true.
Proof. unfold has_id. apply String.eqb_refl. Qed.

(** Whether a row collides depends on its id and its three unique columns. *)
Lemma collides_ext e1 e2 r :
  String.eqb (id r) (id e1) = String.eqb (id r) (id e2) →
  subdomain e1 = subdomain e2 → domain e1 = domain e2 →
  schemaName e1 = schemaName e2 →
  collides e1 r = collides e2 r.
Proof.
  intros Hid Hs Hd Hn. unfold collides, same_domain.
  by rewrite Hid, Hs, Hd, Hn.
Qed.

Lemma violates_ext e1 e2 rows :
  (∀ r, r ∈ rows → String.eqb (id r) (id e1) = String.eqb (id r) (id e2)) →
  subdomain e1 = subdomain e2 → domain e1 = domain e2 →
  schemaName e1 = schemaName e2 →
  violates e1 rows = violates e2 rows.
Proof.
  intros Hid Hs Hd Hn. unfold violates.
  induction rows as [|r rows IH]; [done|]. simpl.
  rewrite (collides_ext e1 e2 r); [|by apply Hid, list_elem_of_here|done..].
  f_equal. apply IH. intros r' Hr'. by apply Hid, list_elem_of_further.
Qed.

(** ** Provisioning (C5, C3, C7) *)

Lemma create_check_pass d w :
  Repository.findOne (TenantsService.create_where d) w = None →
  TenantsService.create_check d w = (Resolved tt, w).
Proof. intros H. unfold TenantsService.create_check. by rewrite H. Qed.

Lemma create_check_conflict d w existingTenant :
  Repository.findOne (TenantsService.create_where d) w = Some existingTenant →
  ∃ msg, TenantsService.create_check d w = (Rejected (ConflictException msg), w).
Proof.
  intros H. unfold TenantsService.create_check. rewrite H.
  apply findOne_Some in H as (_ & _ & Hm).
  unfold TenantsService.create_where in Hm.
  cbn [existsb matches] in Hm.
  destruct (String.eqb (subdomain existingTenant) (CreateTenantDto.subdomain d))
    eqn:Hsub; [by eexists|].
  rewrite orb_false_l in Hm.
  destruct (CreateTenantDto.domain d) as [v|]; [|done].
  destruct (truthy (Some v)); [|done].
  cbn [existsb matches] in Hm. rewrite orb_false_r in Hm.
  destruct (domain existingTenant) as [v'|]; [|done].
  cbn [strict_eq]. rewrite Hm. by eexists.
Qed.

Lemma create_conflict db d w existingTenant :
  Repository.findOne (TenantsService.create_where d) w = Some existingTenant →
  ∃ msg, TenantsService.create db d w = (Rejected (ConflictException msg), w).
Proof.
  intros H. destruct (create_check_conflict _ _ _ H) as [msg Hc].
  exists msg. unfold TenantsService.create, await. by rewrite Hc.
Qed.

Lemma save_new e w :
  ids_generated w = true → id e = "" →
  Repository.save e w
  = if violates (with_id (uuid (idSeq w)) e) (tenants w)
    then (Rejected duplicate_key, w)
    else (Resolved (with_id (uuid (idSeq w)) e),
          mkWorld (tenants w ++ [with_id (uuid (idSeq w)) e]) (S (idSeq w))
            (now w) (schemas w) (tenantConnections w) (dataSources w)
            (trace w ++ [Inserted (with_id (uuid (idSeq w)) e)])).
Proof.
  intros Hw He. unfold Repository.save.
  rewrite He, (existsb_has_id_absent w "" Hw) by by left. done.
Qed.

Lemma create_insert_rejected db d w :
  ids_generated w = true →
  Repository.findOne (TenantsService.create_where d) w = None →
  violates (pending_row d w) (tenants w) = true →
  TenantsService.create db d w = (Rejected duplicate_key, w).
Proof.
  intros Hw Hf Hv. unfold TenantsService.create, await.
  rewrite (create_check_pass _ _ Hf), save_new by done.
  fold (pending_row d w). by rewrite Hv.
Qed.

Lemma fresh_id_absent d w :
  ids_generated w = true →
  ∀ r, r ∈ tenants w → has_id (id (pending_row d w)) r = false.
Proof.
  intros Hw. apply has_id_absent; [done|]. right. exists (idSeq w). done.
Qed.

Lemma create_ddl_fails db d w :
  ids_generated w = true →
  Repository.findOne (TenantsService.create_where d) w = None →
  violates (pending_row d w) (tenants w) = false →
  db ≠ DdlOk →
  TenantsService.create db d w
  = (Rejected (BadRequestException "Failed to create tenant database schema"),
     mkWorld (tenants w) (S (idSeq w)) (now w) (schemas w) (tenantConnections w)
       (dataSources w)
       (trace w ++ [Inserted (pending_row d w); Deleted (id (pending_row d w))])).
Proof.
  intros Hw Hf Hv Hdb. unfold TenantsService.create, await.
  rewrite (create_check_pass _ _ Hf), save_new by done.
  fold (pending_row d w). rewrite Hv.
  unfold try_catch, await, Repository.delete, set_tenants, throw.
  assert (List.filter (λ r, negb (has_id (id (pending_row d w)) r))
            (tenants w ++ [pending_row d w]) = tenants w) as Hrows.
  { rewrite List.filter_app, filter_absent_id by by apply fresh_id_absent.
    cbn [List.filter]. rewrite has_id_refl. cbn [negb]. apply app_nil_r. }
  change (id (pending_row d w)) with (uuid (idSeq w)) in Hrows.
  destruct db; [done|..]; simpl; rewrite Hrows, <- app_assoc; reflexivity.
Qed.

Lemma create_ok d w :
  ids_generated w = true →
  Repository.findOne (TenantsService.create_where d) w = None →
  violates (pending_row d w) (tenants w) = false →
  TenantsService.create DdlOk d w
  = (Resolved (with_status ACTIVE (pending_row d w)),
     mkWorld (tenants w ++ [with_status ACTIVE (pending_row d w)]) (S (idSeq w))
       (now w) (schemas w ∪ {["tenant_" +:+ CreateTenantDto.subdomain d]})
       (tenantConnections w) (dataSources w)
       (trace w ++ [Inserted (pending_row d w);
                    SchemaCreated ("tenant_" +:+ CreateTenantDto.subdomain d);
                    Updated (with_status ACTIVE (pending_row d w))])).
Proof.
  intros Hw Hf Hv. unfold TenantsService.create, await.
  rewrite (create_check_pass _ _ Hf), save_new by done.
  fold (pending_row d w). rewrite Hv.
  unfold try_catch. simpl. unfold Repository.save. simpl.
  set (p := pending_row d w) in *. set (a := with_status ACTIVE p).
  change (uuid (idSeq w)) with (id p).
  assert (existsb (has_id (id p)) (tenants w ++ [p]) = true) as ->.
  { rewrite existsb_app. cbn [existsb].
    rewrite (has_id_refl p). by rewrite orb_true_r. }
  assert (unchanged a (tenants w ++ [p]) = false) as ->.
  { unfold unchanged. apply bool_decide_eq_false. change (id a) with (id p).
    rewrite find_app_none.
    - cbn [List.find]. rewrite (has_id_refl p). by intros [= Heq].
    - by apply fresh_id_absent. }
  assert (violates a (tenants w ++ [p]) = false) as ->.
  { unfold violates. rewrite existsb_app. simpl.
    fold (violates a (tenants w)).
    rewrite (violates_ext a p) by done. rewrite Hv. simpl.
    unfold collides. simpl. by rewrite String.eqb_refl. }
  unfold set_tenants, replace_row. cbn [tenants idSeq now schemas tenantConnections dataSources trace].
  rewrite List.map_app. cbn [List.map].
  change (id a) with (id p). rewrite has_id_refl.
  change (map (λ r, if has_id (id p) r then a else r) (tenants w))
    with (replace_row a (tenants w)).
  rewrite replace_row_absent by by apply fresh_id_absent.
  do 2 f_equal. rewrite <- !app_assoc. reflexivity.
Qed.

Lemma violates_duplicate e rows r :
  r ∈ rows → has_id (id e) r = false →
  subdomain r = subdomain e ∨ (is_Some (domain e) ∧ domain r = domain e) →
  violates e rows = true.
Proof.
  intros Hin Hid Hdup. unfold violates. apply existsb_exists.
  exists r. split; [by apply list_elem_of_In|].
  unfold collides, same_domain. unfold has_id in Hid. rewrite Hid.
  destruct Hdup as [->|[[v Hv] ->]].
  - by rewrite String.eqb_refl.
  - by rewrite Hv, String.eqb_refl, orb_true_r.
Qed.

(** Where the check before the insert sees the duplicate.  When a row that
    lookups can see (one that is not tombstoned) has the draft's subdomain, or
    has the draft's domain and that domain is a non-empty string, [create]
    rejects with a [ConflictException] and the world is untouched: no row is
    stored and no schema is created.  When any stored row at all has the
    draft's subdomain or domain, [create] is rejected with some error, by the
    check or else by the unique index, and again nothing is stored or
    created. *)
Theorem create_rejects_duplicate (db : Ddl) (d : CreateTenantDto.t) (t : Tenant) (w : World) :
  t ∈ tenants w →
  (live t = true →
   subdomain t = CreateTenantDto.subdomain d
   ∨ (truthy (CreateTenantDto.domain d) = true
      ∧ domain t = CreateTenantDto.domain d) →
   ∃ msg, TenantsService.create db d w = (Rejected (ConflictException msg), w))
  ∧ (ids_generated w = true →
     subdomain t = CreateTenantDto.subdomain d
     ∨ (is_Some (CreateTenantDto.domain d)
        ∧ domain t = CreateTenantDto.domain d) →
     ∃ e, TenantsService.create db d w = (Rejected e, w)).
Proof.
  intros Hin. split.
  - intros Hlive Hdup.
    destruct (findOne_is_Some (TenantsService.create_where d) w t Hin Hlive)
      as [existingTenant Hf]; [|by eapply create_conflict].
    unfold TenantsService.create_where. cbn [existsb matches].
    destruct Hdup as [->|[Htruthy Hdom]]; [by rewrite String.eqb_refl|].
    destruct (CreateTenantDto.domain d) as [v|]; [|done].
    rewrite Htruthy. cbn [existsb matches]. rewrite Hdom.
    by rewrite String.eqb_refl, !orb_true_r.
  - intros Hw Hdup.
    destruct (Repository.findOne (TenantsService.create_where d) w)
      as [existingTenant|] eqn:Hf.
    { destruct (create_conflict db _ _ _ Hf) as [msg Hm]. by eexists. }
    eexists. apply create_insert_rejected; [done..|].
    apply (violates_duplicate _ _ t); [done|by apply fresh_id_absent|done].
Qed.

Lemma create_rejects_duplicate_witness :
  ∃ msg,
    TenantsService.create DdlOk acme w_acme
    = (Rejected (ConflictException msg), w_acme).
Proof.
  apply (create_rejects_duplicate DdlOk acme
           (with_status ACTIVE (pending_row acme world0)) w_acme).
  - apply list_elem_of_here.
  - reflexivity.
  - left. reflexivity.
Defined.

(** C5 does not hold of [create] when the domain the two tenants share is the
    empty string.  The check that is to find out whether "subdomain or domain
    already exists" tests [createTenantDto.domain] for truthiness and so
    leaves the domain out of the lookup; the draft passes the check and is
    stopped only by the unique index, with the database's error in place of
    a [ConflictException].  Nothing is stored. *)
Lemma create_blank_domain_is_no_conflict :
  (∃ t, t ∈ tenants w_blank ∧ live t = true
        ∧ domain t = CreateTenantDto.domain blank_two)
  ∧ TenantsService.create DdlOk blank_two w_blank
    = (Rejected duplicate_key, w_blank).
Proof.
  split.
  - eexists. split; [apply list_elem_of_here|]. split; reflexivity.
  - vm_compute. reflexivity.
Qed.

Lemma ids_generated_mono w w' :
  tenants w' = tenants w → (idSeq w ≤ idSeq w')%nat →
  ids_generated w = true → ids_generated w' = true.
Proof.
  unfold ids_generated. intros -> Hle H.
  rewrite forallb_forall in *. intros r Hr. specialize (H r Hr).
  apply existsb_exists in H as (k & Hk & Heq).
  apply existsb_exists. exists k. split; [|done].
  apply in_seq in Hk. apply in_seq. lia.
Qed.

Lemma violates_false_subdomain e rows r :
  violates e rows = false → r ∈ rows → has_id (id e) r = false →
  subdomain r ≠ subdomain e.
Proof.
  unfold violates. intros Hv Hin Hid Heq.
  apply list_elem_of_In in Hin.
  assert (collides e r = true) as Hc.
  { unfold collides. unfold has_id in Hid. rewrite Hid, Heq, String.eqb_refl. done. }
  assert (existsb (collides e) rows = true) as Hex
    by (apply existsb_exists; eauto).
  by rewrite Hv in Hex.
Qed.

(** C3. When the check before the insert has passed and the [PENDING] row was
    stored, a failure of the schema-creation DDL, wherever it occurs, makes
    [create] delete that row and reject with its provisioning error.
    Afterwards the table is what it was before the call, no schema was
    created, no row has the draft's subdomain, the subdomain is reported
    available, and the same draft can be provisioned at once. *)
Theorem create_compensates_failed_ddl (db : Ddl) (d : CreateTenantDto.t) (w : World) :
  ids_generated w = true →
  Repository.findOne (TenantsService.create_where d) w = None →
  violates (pending_row d w) (tenants w) = false →
  db ≠ DdlOk →
  ∃ w',
    TenantsService.create db d w
    = (Rejected (BadRequestException "Failed to create tenant database schema"), w')
    ∧ status (pending_row d w) = PENDING
    ∧ trace w'
      = trace w ++ [Inserted (pending_row d w); Deleted (id (pending_row d w))]
    ∧ tenants w' = tenants w
    ∧ schemas w' = schemas w
    ∧ (∀ r, r ∈ tenants w' → subdomain r ≠ CreateTenantDto.subdomain d)
    ∧ TenantsService.checkSubdomainAvailability (CreateTenantDto.subdomain d) w'
      = (Resolved true, w')
    ∧ ∃ t w'',
        TenantsService.create DdlOk d w' = (Resolved t, w'')
        ∧ subdomain t = CreateTenantDto.subdomain d
        ∧ status t = ACTIVE.
Proof.
  intros Hw Hf Hv Hdb. eexists. split; [by apply create_ddl_fails|].
  set (w' := mkWorld _ _ _ _ _ _ _).
  assert (∀ r, r ∈ tenants w' → subdomain r ≠ CreateTenantDto.subdomain d) as Hnone.
  { intros r Hr.
    apply (violates_false_subdomain (pending_row d w) (tenants w)); [done..|].
    by apply fresh_id_absent. }
  split_and!; [done..| |].
  - unfold TenantsService.checkSubdomainAvailability.
    destruct (Repository.findOne _ w') as [r|] eqn:Hr; [|done].
    apply findOne_Some in Hr as (Hin & _ & Hm). exfalso.
    cbn [existsb matches] in Hm. rewrite orb_false_r in Hm.
    apply String.eqb_eq in Hm. by apply (Hnone r).
  - assert (ids_generated w' = true) as Hw'
      by (apply (ids_generated_mono w); [done|simpl; lia|done]).
    assert (violates (pending_row d w') (tenants w') = false) as Hv'.
    { rewrite <- Hv. apply violates_ext; [|done..].
      intros r Hr.
      pose proof (has_id_absent w (uuid (S (idSeq w))) Hw) as H1.
      pose proof (has_id_absent w (uuid (idSeq w)) Hw) as H2.
      unfold has_id in H1, H2. simpl.
      rewrite H1, H2; [done|..]; try done.
      all: right; eexists; (split; [|done]); lia. }
    do 2 eexists. split; [by apply create_ok|]. done.
Qed.

Lemma create_compensates_failed_ddl_witness :
  ∃ w',
    TenantsService.create QueryFails acme world0
    = (Rejected (BadRequestException "Failed to create tenant database schema"), w')
    ∧ tenants w' = [].
Proof.
  destruct (create_compensates_failed_ddl QueryFails acme world0)
    as (w' & Hc & _ & _ & Ht & _); [reflexivity..|done|].
  exists w'. split; [exact Hc|exact Ht].
Defined.

(** C7. Whenever [create] resolves, the tenant it returns has the schema name
    ["tenant_"] followed by the draft's subdomain and the status [ACTIVE];
    the row was first stored in [PENDING], then the schema was created, then
    the row was updated to [ACTIVE], and it is in the table in that state. *)
Theorem create_resolves_active (db : Ddl) (d : CreateTenantDto.t) (t : Tenant) (w w' : World) :
  ids_generated w = true →
  TenantsService.create db d w = (Resolved t, w') →
  schemaName t = "tenant_" +:+ CreateTenantDto.subdomain d
  ∧ status t = ACTIVE
  ∧ (∃ pending,
        status pending = PENDING
        ∧ t = with_status ACTIVE pending
        ∧ trace w'
          = trace w ++ [Inserted pending; SchemaCreated (schemaName t); Updated t])
  ∧ t ∈ tenants w'
  ∧ schemaName t ∈ schemas w'.
Proof.
  intros Hw Hc.
  destruct (Repository.findOne (TenantsService.create_where d) w) as [ex|] eqn:Hf.
  { destruct (create_conflict db _ _ _ Hf) as [msg Hm]. congruence. }
  destruct (violates (pending_row d w) (tenants w)) eqn:Hv.
  { rewrite (create_insert_rejected db d w Hw Hf Hv) in Hc. congruence. }
  destruct (decide (db = DdlOk)) as [->|Hdb].
  - rewrite (create_ok d w Hw Hf Hv) in Hc.
    injection Hc as <- <-. split_and!; [done..| | |].
    + exists (pending_row d w). done.
    + simpl. apply elem_of_app. right. apply list_elem_of_here.
    + simpl. set_solver.
  - rewrite (create_ddl_fails db d w Hw Hf Hv Hdb) in Hc. congruence.
Qed.

Lemma create_resolves_active_witness :
  ∃ t w',
    TenantsService.create DdlOk acme world0 = (Resolved t, w')
    ∧ schemaName t = "tenant_acme"
    ∧ status t = ACTIVE.
Proof.
  exists (with_status ACTIVE (pending_row acme world0)), w_acme.
  assert (TenantsService.create DdlOk acme world0
          = (Resolved (with_status ACTIVE (pending_row acme world0)), w_acme))
    as Hrun by (vm_compute; reflexivity).
  split; [exact Hrun|].
  destruct (create_resolves_active DdlOk acme _ world0 w_acme eq_refl Hrun)
    as (Hn & Hs & _).
  split; [exact Hn|exact Hs].
Defined.

(** ** Directory writes after creation (C8) *)

Lemma primary_key_unique rows r t0 :
  NoDup (id <$> rows) → r ∈ rows → t0 ∈ rows → id r = id t0 → r = t0.
Proof.
  induction rows as [|x rows IH]; intros Hnd Hr Ht Hid.
  { by apply elem_of_nil in Hr. }
  rewrite fmap_cons in Hnd. apply NoDup_cons in Hnd as [Hx Hnd].
  apply elem_of_cons in Hr as [->|Hr]; apply elem_of_cons in Ht as [->|Ht].
  - done.
  - exfalso. apply Hx. rewrite Hid. by apply list_elem_of_fmap_2.
  - exfalso. apply Hx. rewrite <- Hid. by apply list_elem_of_fmap_2.
  - by apply IH.
Qed.

Lemma replace_row_schema_names rows e t0 :
  NoDup (id <$> rows) → t0 ∈ rows →
  id e = id t0 → schemaName e = schemaName t0 →
  (λ t, (id t, schemaName t)) <$> replace_row e rows
  = (λ t, (id t, schemaName t)) <$> rows.
Proof.
  intros Hnd Ht Hid Hn. unfold replace_row.
  change (List.map ?f ?l) with (f <$> l).
  rewrite <- list_fmap_compose. apply list_fmap_ext.
  intros k r Hr. simpl. unfold has_id.
  destruct (String.eqb (id r) (id e)) eqn:He; [|done].
  apply String.eqb_eq in He.
  assert (r = t0) as ->.
  { apply (primary_key_unique rows); [done| |done|congruence].
    by eapply list_elem_of_lookup_2. }
  by rewrite Hid, Hn.
Qed.

Lemma elem_of_replace_row rows e t0 :
  t0 ∈ rows → id e = id t0 → e ∈ replace_row e rows.
Proof.
  intros Ht Hid. unfold replace_row.
  change (List.map ?f ?l) with (f <$> l).
  apply list_elem_of_fmap. exists t0. split; [|done].
  unfold has_id. by rewrite Hid, String.eqb_refl.
Qed.

Lemma replace_row_self rows t0 :
  NoDup (id <$> rows) → t0 ∈ rows → replace_row t0 rows = rows.
Proof.
  intros Hnd Hin. unfold replace_row.
  change (List.map ?f ?l) with (f <$> l).
  rewrite <- (list_fmap_id rows) at 2. apply list_fmap_ext.
  intros k r Hr. simpl. unfold has_id.
  destruct (String.eqb (id r) (id t0)) eqn:He; [|done].
  apply String.eqb_eq in He. symmetry.
  apply (primary_key_unique rows); [done| |done|done].
  by eapply list_elem_of_lookup_2.
Qed.

Lemma unchanged_elem e rows : unchanged e rows = true → e ∈ rows.
Proof.
  unfold unchanged. intros H. apply bool_decide_eq_true in H.
  apply find_some in H as [H _]. by apply list_elem_of_In.
Qed.

Lemma unchanged_stored rows t0 :
  NoDup (id <$> rows) → t0 ∈ rows → unchanged t0 rows = true.
Proof.
  intros Hnd Hin. unfold unchanged. apply bool_decide_eq_true.
  destruct (List.find (has_id (id t0)) rows) as [x|] eqn:Hx.
  - apply find_some in Hx as [Hx Hid]. apply list_elem_of_In in Hx.
    unfold has_id in Hid. apply String.eqb_eq in Hid.
    f_equal. by apply (primary_key_unique rows).
  - apply list_elem_of_In in Hin.
    pose proof (find_none _ _ Hx _ Hin) as Hn. simpl in Hn.
    by rewrite has_id_refl in Hn.
Qed.

Lemma unchanged_differs rows e t0 :
  NoDup (id <$> rows) → t0 ∈ rows → id e = id t0 → e ≠ t0 →
  unchanged e rows = false.
Proof.
  intros Hnd Hin Hid Hne. apply not_true_is_false. intros Hu.
  apply unchanged_elem in Hu. apply Hne.
  by apply (primary_key_unique rows).
Qed.

Lemma save_stored_row e t0 w :
  primary_key w → t0 ∈ tenants w →
  id e = id t0 → schemaName e = schemaName t0 →
  schema_names (snd (Repository.save e w)) = schema_names w
  ∧ ∀ t, fst (Repository.save e w) = Resolved t →
         t = e ∧ t ∈ tenants (snd (Repository.save e w)).
Proof.
  intros Hpk Ht Hid Hn. unfold Repository.save.
  assert (existsb (has_id (id e)) (tenants w) = true) as ->.
  { apply existsb_exists. exists t0. split; [by apply list_elem_of_In|].
    unfold has_id. by rewrite Hid, String.eqb_refl. }
  destruct (unchanged e (tenants w)) eqn:Hun.
  { simpl. split; [done|]. intros t [= <-]. split; [done|].
    by apply unchanged_elem. }
  destruct (violates e (tenants w)); simpl; [done|].
  split.
  - unfold schema_names. simpl. by apply (replace_row_schema_names _ _ t0).
  - intros t [= <-]. split; [done|]. by apply (elem_of_replace_row _ _ t0).
Qed.

Lemma update_check_outcome i tenant d w :
  TenantsService.update_check i tenant d w = (Resolved tt, w)
  ∨ ∃ e, TenantsService.update_check i tenant d w = (Rejected e, w).
Proof.
  unfold TenantsService.update_check.
  repeat case_match; first [by left|right; by eexists].
Qed.

(** C8. [update], [suspend] and [activate] leave the schema name of every row
    as it was, whatever they are given and however they end; the tenant they
    return on success is stored, with the id and the schema name of the row
    that was loaded.  For [update] this holds also when the draft changes the
    subdomain. *)
Theorem schemaName_is_immutable (i : string) (d : UpdateTenantDto.t) (w : World) :
  primary_key w →
  ∀ op,
    op ∈ [TenantsService.update i d; TenantsService.suspend i;
          TenantsService.activate i] →
    schema_names (snd (op w)) = schema_names w
    ∧ ∀ t, fst (op w) = Resolved t →
        t ∈ tenants (snd (op w))
        ∧ ∃ t0, Repository.findOne [ById i] w = Some t0
                ∧ id t = id t0 ∧ schemaName t = schemaName t0.
Proof.
  intros Hpk op Hop.
  destruct (Repository.findOne [ById i] w) as [t0|] eqn:Hf.
  2: { repeat (apply elem_of_cons in Hop as [->|Hop]);
         [..|by apply elem_of_nil in Hop].
       all: unfold TenantsService.update, TenantsService.suspend,
              TenantsService.activate, await.
       all: rewrite (service_findOne_missing _ _ Hf); simpl; by split. }
  pose proof (findOne_ById _ _ _ Hf) as (Hid & Hin & _).
  repeat (apply elem_of_cons in Hop as [->|Hop]); [..|by apply elem_of_nil in Hop].
  - unfold TenantsService.update, await.
    rewrite (service_findOne_found _ _ _ Hf).
    destruct (update_check_outcome i t0 d w) as [->|[e ->]]; [|by split].
    destruct (save_stored_row (assign t0 d) t0 w Hpk Hin eq_refl eq_refl)
      as [Hnames Hres].
    split; [done|]. intros t Ht. destruct (Hres t Ht) as [-> ?].
    split; [done|]. by exists t0.
  - unfold TenantsService.suspend, await.
    rewrite (service_findOne_found _ _ _ Hf).
    destruct (save_stored_row (with_isActive false (with_status SUSPENDED t0))
                t0 w Hpk Hin eq_refl eq_refl) as [Hnames Hres].
    split; [done|]. intros t Ht. destruct (Hres t Ht) as [-> ?].
    split; [done|]. by exists t0.
  - unfold TenantsService.activate, await.
    rewrite (service_findOne_found _ _ _ Hf).
    destruct (save_stored_row (with_isActive true (with_status ACTIVE t0))
                t0 w Hpk Hin eq_refl eq_refl) as [Hnames Hres].
    split; [done|]. intros t Ht. destruct (Hres t Ht) as [-> ?].
    split; [done|]. by exists t0.
Qed.

Lemma schemaName_is_immutable_witness :
  ∃ t w',
    TenantsService.update "0" rename_to_acme2 w_acme = (Resolved t, w')
    ∧ subdomain t = "acme2"
    ∧ schemaName t = "tenant_acme"
    ∧ schema_names w' = [("0", "tenant_acme")].
Proof.
  assert (primary_key w_acme) as Hpk.
  { unfold primary_key. simpl. apply NoDup_singleton. }
  destruct (schemaName_is_immutable "0" rename_to_acme2 w_acme Hpk
              (TenantsService.update "0" rename_to_acme2))
    as [Hnames _]; [apply list_elem_of_here|].
  do 2 eexists. split; [vm_compute; reflexivity|].
  split; [reflexivity|]. split; [reflexivity|].
  etrans; [|exact Hnames]. vm_compute. reflexivity.
Defined.

(** * Further properties of the services *)

(** ** The guard, case by case *)

Lemma findOne_of_member (t : Tenant) (w : World) :
  primary_key w → t ∈ tenants w → live t = true →
  Repository.findOne [ById (id t)] w = Some t.
Proof.
  intros Hpk Hin Hl.
  destruct (findOne_is_Some [ById (id t)] w t Hin Hl) as [t' Hf].
  { cbn [existsb matches]. by rewrite String.eqb_refl. }
  rewrite Hf. f_equal.
  apply findOne_ById in Hf as (Hid & Hin' & _).
  by apply (primary_key_unique (tenants w)).
Qed.

(** The guard resolves only with [true], and exactly when the header names a
    row that lookups see and whose [isActive] flag is set; that row is what it
    attaches.  Every other request is rejected with the request untouched:
    with a [BadRequestException] when the header is missing or empty, and
    with a [ForbiddenException] otherwise, so that the [NotFoundException] of
    the lookup never reaches the caller. *)
Theorem canActivate_outcomes (request : Request) (w : World) :
  match TenantGuard.canActivate request w with
  | (Resolved b, request') =>
      b = true
      ∧ ∃ i t,
          x_tenant_id request = Some i ∧ i ≠ ""
          ∧ Repository.findOne [ById i] w = Some t
          ∧ isActive t = true
          ∧ request' = mkRequest (Some i) (Some t)
  | (Rejected e, request') =>
      request' = request
      ∧ ((e = BadRequestException "Tenant ID is required"
          ∧ truthy (x_tenant_id request) = false)
         ∨ (e = ForbiddenException "Tenant validation failed"
            ∧ ∃ i, x_tenant_id request = Some i
                   ∧ Repository.findOne [ById i] w = None)
         ∨ (e = ForbiddenException "Invalid or inactive tenant"
            ∧ ∃ i t, x_tenant_id request = Some i
                     ∧ Repository.findOne [ById i] w = Some t
                     ∧ isActive t = false))
  end.
Proof.
  destruct (truthy (x_tenant_id request)) eqn:Hh.
  2: { rewrite canActivate_missing_header by done. split; [done|]. by left. }
  destruct (x_tenant_id request) as [i|] eqn:Hx; [|done].
  assert (i ≠ "") as Hi.
  { intros ->. done. }
  destruct (Repository.findOne [ById i] w) as [t|] eqn:Hf.
  - destruct (isActive t) eqn:Ha.
    + rewrite (canActivate_flag_set i t) by done.
      split; [done|]. by exists i, t.
    + rewrite (canActivate_inactive i t) by done.
      split; [done|]. right. right. split; [done|]. by exists i, t.
  - rewrite (canActivate_unknown i) by done.
    split; [done|]. right. left. split; [done|]. by exists i.
Qed.

(** Every tenant that [getActiveTenants] lists is usable and, under its id,
    passes the guard. *)
Theorem active_tenants_pass_the_guard (t : Tenant) (l : list Tenant) (w : World) :
  primary_key w → id t ≠ "" →
  TenantsService.getActiveTenants w = (Resolved l, w) → t ∈ l →
  usable t = true
  ∧ TenantGuard.canActivate (request_for (id t)) w
    = (Resolved true, mkRequest (Some (id t)) (Some t)).
Proof.
  intros Hpk Hid Hl Hin.
  unfold TenantsService.getActiveTenants, resolve in Hl. injection Hl as <-.
  apply list_elem_of_In, filter_In in Hin as [Hin Hp].
  apply list_elem_of_In in Hin.
  apply andb_true_iff in Hp as [Hp Hs]. apply andb_true_iff in Hp as [Hlive Ha].
  split.
  - unfold usable. by rewrite Hs, Ha.
  - apply (canActivate_flag_set (id t) t); [done..| |done].
    by apply findOne_of_member.
Qed.

Lemma active_tenants_pass_the_guard_witness :
  TenantGuard.canActivate (request_for "0") w_acme
  = (Resolved true,
     mkRequest (Some "0") (Some (with_status ACTIVE (pending_row acme world0)))).
Proof.
  apply (active_tenants_pass_the_guard
           (with_status ACTIVE (pending_row acme world0))
           [with_status ACTIVE (pending_row acme world0)] w_acme).
  - unfold primary_key. simpl. apply NoDup_singleton.
  - done.
  - vm_compute. reflexivity.
  - apply list_elem_of_here.
Defined.

(** ** Suspension, activation and removal, seen through lookups *)

Lemma replace_row_ids e rows : id <$> replace_row e rows = id <$> rows.
Proof.
  unfold replace_row. change (List.map ?f ?l) with (f <$> l).
  rewrite <- list_fmap_compose. apply list_fmap_ext.
  intros k r _. simpl. unfold has_id.
  destruct (String.eqb (id r) (id e)) eqn:He; [|done].
  by apply String.eqb_eq in He.
Qed.

Lemma save_stored_lookup e t0 t w w' :
  primary_key w → t0 ∈ tenants w → id e = id t0 → live e = true →
  Repository.save e w = (Resolved t, w') →
  t = e
  ∧ primary_key w'
  ∧ tenants w' = replace_row e (tenants w)
  ∧ Repository.findOne [ById (id e)] w' = Some e.
Proof.
  intros Hpk Ht Hid Hl Hs. unfold Repository.save in Hs.
  assert (existsb (has_id (id e)) (tenants w) = true) as Hex.
  { apply existsb_exists. exists t0. split; [by apply list_elem_of_In|].
    unfold has_id. by rewrite Hid, String.eqb_refl. }
  rewrite Hex in Hs.
  destruct (unchanged e (tenants w)) eqn:Hun.
  { injection Hs as <- <-. apply unchanged_elem in Hun.
    split_and!; [done|done| |by apply findOne_of_member].
    symmetry. by apply replace_row_self. }
  destruct (violates e (tenants w)); [done|].
  injection Hs as <- <-.
  assert (primary_key (set_tenants (replace_row e (tenants w)) [Updated e] w))
    as Hpk'.
  { unfold primary_key. simpl. by rewrite replace_row_ids. }
  split_and!; [done|done|done|].
  apply findOne_of_member; [done| |done].
  simpl. by apply (elem_of_replace_row _ _ t0).
Qed.

(** What [suspend] and [activate] have in common: load the row, change it,
    store it. *)
Lemma load_change_store (change : Tenant → Tenant) i t w w' :
  (∀ x, id (change x) = id x ∧ deletedAt (change x) = deletedAt x) →
  primary_key w →
  (let* tenant := TenantsService.findOne i in Repository.save (change tenant)) w
  = (Resolved t, w') →
  ∃ t0,
    Repository.findOne [ById i] w = Some t0
    ∧ t = change t0
    ∧ primary_key w'
    ∧ tenants w' = replace_row t (tenants w)
    ∧ Repository.findOne [ById i] w' = Some t.
Proof.
  intros Hch Hpk Hrun. unfold await in Hrun.
  destruct (Repository.findOne [ById i] w) as [t0|] eqn:Hf.
  2: { by rewrite (service_findOne_missing _ _ Hf) in Hrun. }
  rewrite (service_findOne_found _ _ _ Hf) in Hrun.
  pose proof (findOne_ById _ _ _ Hf) as (Hid & Hin & Hlive).
  destruct (Hch t0) as [Hcid Hcdel].
  destruct (save_stored_lookup (change t0) t0 t w w' Hpk Hin Hcid)
    as (-> & Hpk' & Hrows & Hfind); [|done|].
  { unfold live in *. by rewrite Hcdel. }
  exists t0. rewrite Hcid, Hid in Hfind. done.
Qed.

(** A tenant that [suspend] has suspended is stored as [SUSPENDED] with its
    flag cleared, is no longer usable, and the guard rejects its id with an
    authorization error. *)
Theorem suspend_locks_out (i : string) (t : Tenant) (w w' : World) :
  primary_key w → i ≠ "" →
  TenantsService.suspend i w = (Resolved t, w') →
  status t = SUSPENDED
  ∧ isActive t = false
  ∧ usable t = false
  ∧ TenantsService.findOne i w' = (Resolved t, w')
  ∧ TenantGuard.canActivate (request_for i) w'
    = (Rejected (ForbiddenException "Invalid or inactive tenant"), request_for i).
Proof.
  intros Hpk Hi Hrun.
  destruct (load_change_store
              (λ x, with_isActive false (with_status SUSPENDED x)) i t w w')
    as (t0 & Hf & -> & _ & _ & Hf'); [done..|].
  split_and!; [done|done|done|by apply service_findOne_found|].
  by apply (canActivate_inactive i _ (request_for i) w' eq_refl Hi Hf').
Qed.

Lemma suspend_locks_out_witness :
  TenantGuard.canActivate (request_for "0")
    (snd (TenantsService.suspend "0" w_acme))
  = (Rejected (ForbiddenException "Invalid or inactive tenant"), request_for "0").
Proof.
  eapply (suspend_locks_out "0" _ w_acme).
  - unfold primary_key. simpl. apply NoDup_singleton.
  - done.
  - vm_compute. reflexivity.
Defined.

(** [activate] makes the tenant it is given usable, whatever its status was,
    a [PENDING] or [SUSPENDED] one included: it is stored as [ACTIVE] with its
    flag set and the guard admits its id, attaching the stored row. *)
Theorem activate_admits (i : string) (t : Tenant) (w w' : World) :
  primary_key w → i ≠ "" →
  TenantsService.activate i w = (Resolved t, w') →
  status t = ACTIVE
  ∧ isActive t = true
  ∧ usable t = true
  ∧ TenantsService.findOne i w' = (Resolved t, w')
  ∧ TenantGuard.canActivate (request_for i) w'
    = (Resolved true, mkRequest (Some i) (Some t)).
Proof.
  intros Hpk Hi Hrun.
  destruct (load_change_store
              (λ x, with_isActive true (with_status ACTIVE x)) i t w w')
    as (t0 & Hf & -> & _ & _ & Hf'); [done..|].
  split_and!; [done|done|done|by apply service_findOne_found|].
  by apply (canActivate_flag_set i _ (request_for i) w' eq_refl Hi Hf').
Qed.

Lemma activate_admits_witness :
  ∃ t,
    TenantGuard.canActivate (request_for "0")
      (snd (TenantsService.activate "0"
              (snd (TenantsService.suspend "0" w_acme))))
    = (Resolved true, mkRequest (Some "0") (Some t))
    ∧ status t = ACTIVE.
Proof.
  eexists. split.
  - eapply (activate_admits "0" _ (snd (TenantsService.suspend "0" w_acme))).
    + unfold primary_key. simpl. apply NoDup_singleton.
    + done.
    + vm_compute. reflexivity.
  - reflexivity.
Defined.

Lemma remove_resolved db i w w' :
  TenantsService.remove db i w = (Resolved tt, w') →
  ∃ t,
    Repository.findOne [ById i] w = Some t
    ∧ w' = snd (Repository.softDelete i
                  (snd (TenantConnectionService.dropTenantSchema DdlOk
                          (schemaName t) w))).
Proof.
  unfold TenantsService.remove, await, try_catch. intros Hrun.
  destruct (Repository.findOne [ById i] w) as [t|] eqn:Hf.
  2: { by rewrite (service_findOne_missing _ _ Hf) in Hrun. }
  rewrite (service_findOne_found _ _ _ Hf) in Hrun.
  exists t. split; [done|].
  destruct db; simpl in Hrun; [|done..]. by injection Hrun as <-.
Qed.

(** Once [remove] has resolved, the tenant is gone for every lookup: [findOne]
    and a second [remove] reject with a [NotFoundException] and change
    nothing, the guard rejects the id with an authorization error, and
    [getActiveTenants] does not list it. *)
Theorem remove_is_final (db : Ddl) (i : string) (w w' : World) :
  TenantsService.remove db i w = (Resolved tt, w') →
  TenantsService.findOne i w'
  = (Rejected (NotFoundException ("Tenant with ID " +:+ i +:+ " not found")), w')
  ∧ (∀ db',
       TenantsService.remove db' i w'
       = (Rejected (NotFoundException ("Tenant with ID " +:+ i +:+ " not found")),
          w'))
  ∧ (i ≠ "" →
     TenantGuard.canActivate (request_for i) w'
     = (Rejected (ForbiddenException "Tenant validation failed"), request_for i))
  ∧ (∀ l t, TenantsService.getActiveTenants w' = (Resolved l, w') →
            t ∈ l → id t ≠ i).
Proof.
  intros Hrun. destruct (remove_resolved _ _ _ _ Hrun) as (t0 & Hf & ->).
  set (w1 := snd (TenantConnectionService.dropTenantSchema DdlOk _ w)).
  pose proof (softDelete_hides i w1) as Hnone.
  split_and!.
  - by apply service_findOne_missing.
  - intros db'. unfold TenantsService.remove, await.
    by rewrite (service_findOne_missing _ _ Hnone).
  - intros Hi. by apply (canActivate_unknown i (request_for i)).
  - intros l t Hl Hin Hid.
    unfold TenantsService.getActiveTenants, resolve in Hl. injection Hl as <-.
    apply list_elem_of_In, filter_In in Hin as [Hin Hp].
    apply andb_true_iff in Hp as [Hp _]. apply andb_true_iff in Hp as [Hlive _].
    apply list_elem_of_In in Hin.
    assert (existsb (matches t) [ById i] = false) as Hm
      by by apply (findOne_None _ _ _ Hnone).
    cbn [existsb matches] in Hm. rewrite Hid, String.eqb_refl in Hm. done.
Qed.

Lemma remove_is_final_witness :
  TenantsService.findOne "0" (snd (TenantsService.remove DdlOk "0" w_acme))
  = (Rejected (NotFoundException "Tenant with ID 0 not found"),
     snd (TenantsService.remove DdlOk "0" w_acme)).
Proof.
  eapply (remove_is_final DdlOk "0" w_acme). vm_compute. reflexivity.
Defined.

(** ** A provisioned tenant, seen through lookups *)

Lemma violates_false_domain e rows r :
  violates e rows = false → r ∈ rows → has_id (id e) r = false →
  same_domain r e = false.
Proof.
  unfold violates. intros Hv Hin Hid.
  destruct (same_domain r e) eqn:Hd; [|done].
  apply list_elem_of_In in Hin.
  assert (collides e r = true) as Hc.
  { unfold collides. unfold has_id in Hid. by rewrite Hid, Hd, orb_true_r. }
  assert (existsb (collides e) rows = true) as Hex
    by (apply existsb_exists; eauto).
  by rewrite Hv in Hex.
Qed.

Lemma create_resolved db d t w w' :
  ids_generated w = true →
  TenantsService.create db d w = (Resolved t, w') →
  Repository.findOne (TenantsService.create_where d) w = None
  ∧ violates (pending_row d w) (tenants w) = false
  ∧ t = with_status ACTIVE (pending_row d w)
  ∧ tenants w' = tenants w ++ [t]
  ∧ idSeq w' = S (idSeq w).
Proof.
  intros Hw Hc.
  destruct (Repository.findOne (TenantsService.create_where d) w) as [ex|] eqn:Hf.
  { destruct (create_conflict db _ _ _ Hf) as [msg Hm]. congruence. }
  destruct (violates (pending_row d w) (tenants w)) eqn:Hv.
  { rewrite (create_insert_rejected db d w Hw Hf Hv) in Hc. congruence. }
  destruct (decide (db = DdlOk)) as [->|Hdb].
  - rewrite (create_ok d w Hw Hf Hv) in Hc. by injection Hc as <- <-.
  - rewrite (create_ddl_fails db d w Hw Hf Hv Hdb) in Hc. congruence.
Qed.

(** The lookup of a condition that no row of the table before [create]
    meets finds the new row, if the new row meets it. *)
Lemma findOne_new_row conditions t w w' :
  tenants w' = tenants w ++ [t] →
  (∀ r, r ∈ tenants w → existsb (matches r) conditions = false) →
  live t = true → existsb (matches t) conditions = true →
  Repository.findOne conditions w' = Some t.
Proof.
  intros Hrows Hold Hl Hm. unfold Repository.findOne. rewrite Hrows.
  rewrite find_app_none.
  - simpl. by rewrite Hl, Hm.
  - intros r Hr. by rewrite (Hold r Hr), andb_false_r.
Qed.

(** A tenant that [create] has returned is found under its id, under its
    subdomain and under its domain; its subdomain and domain are reported
    taken; and the guard admits its id and attaches it. *)
Theorem create_then_lookups (db : Ddl) (d : CreateTenantDto.t) (t : Tenant) (w w' : World) :
  ids_generated w = true →
  TenantsService.create db d w = (Resolved t, w') →
  TenantsService.findOne (id t) w' = (Resolved t, w')
  ∧ TenantsService.findBySubdomain (CreateTenantDto.subdomain d) w'
    = (Resolved t, w')
  ∧ TenantsService.checkSubdomainAvailability (CreateTenantDto.subdomain d) w'
    = (Resolved false, w')
  ∧ (∀ v, CreateTenantDto.domain d = Some v →
          TenantService.findByDomain v w' = (Resolved t, w')
          ∧ TenantsService.checkDomainAvailability v w' = (Resolved false, w'))
  ∧ TenantGuard.canActivate (request_for (id t)) w'
    = (Resolved true, mkRequest (Some (id t)) (Some t)).
Proof.
  intros Hw Hc.
  destruct (create_resolved _ _ _ _ _ Hw Hc) as (Hf & Hv & -> & Hrows & _).
  set (p := pending_row d w) in *. set (a := with_status ACTIVE p) in *.
  assert (Repository.findOne [ById (id a)] w' = Some a) as Hid.
  { apply (findOne_new_row _ _ w); [done| |done|].
    - intros r Hr. cbn [existsb matches]. rewrite orb_false_r.
      by apply (fresh_id_absent d w Hw).
    - cbn [existsb matches]. by rewrite String.eqb_refl. }
  assert (Repository.findOne [BySubdomain (CreateTenantDto.subdomain d)] w'
          = Some a) as Hsub.
  { apply (findOne_new_row _ _ w); [done| |done|].
    - intros r Hr. cbn [existsb matches]. rewrite orb_false_r.
      apply String.eqb_neq.
      apply (violates_false_subdomain p (tenants w)); [done..|].
      by apply fresh_id_absent.
    - cbn [existsb matches]. by rewrite String.eqb_refl. }
  split_and!.
  - by apply service_findOne_found.
  - unfold TenantsService.findBySubdomain. by rewrite Hsub.
  - unfold TenantsService.checkSubdomainAvailability. by rewrite Hsub.
  - intros v Hdom.
    assert (Repository.findOne [ByDomain v] w' = Some a) as Hd.
    { apply (findOne_new_row _ _ w); [done| |done|].
      - intros r Hr. cbn [existsb matches]. rewrite orb_false_r.
        pose proof (violates_false_domain p (tenants w) r Hv Hr
                      (fresh_id_absent d w Hw r Hr)) as Hsd.
        unfold same_domain in Hsd.
        change (domain p) with (CreateTenantDto.domain d) in Hsd.
        rewrite Hdom in Hsd. by destruct (domain r).
      - cbn [existsb matches].
        change (domain a) with (CreateTenantDto.domain d).
        by rewrite Hdom, String.eqb_refl. }
    split.
    + unfold TenantService.findByDomain, try_catch,
        TenantsService.findByDomain. by rewrite Hd.
    + unfold TenantsService.checkDomainAvailability. by rewrite Hd.
  - apply (canActivate_flag_set (id a) a (request_for (id a)) w');
      [done|apply uuid_nonempty|done|done].
Qed.

Lemma create_then_lookups_witness :
  TenantsService.findBySubdomain "acme" w_acme
  = (Resolved (with_status ACTIVE (pending_row acme world0)), w_acme).
Proof.
  eapply (create_then_lookups DdlOk acme _ world0 w_acme); [reflexivity|].
  vm_compute. reflexivity.
Defined.

(** ** A removed tenant keeps its subdomain *)

Lemma ids_generated_intro w :
  (∀ r, r ∈ tenants w → ∃ k, (k < idSeq w)%nat ∧ id r = uuid k) →
  ids_generated w = true.
Proof.
  intros H. unfold ids_generated. apply forallb_forall. intros r Hr.
  apply list_elem_of_In in Hr. destruct (H r Hr) as (k & Hk & Hid).
  apply existsb_exists. exists k. split.
  - apply in_seq. lia.
  - rewrite Hid. apply String.eqb_refl.
Qed.

Lemma map_if_absent (f : Tenant → Tenant) i rows :
  (∀ r, r ∈ rows → has_id i r = false) →
  List.map (λ r, if has_id i r then f r else r) rows = rows.
Proof.
  induction rows as [|r rows IH]; intros H; [done|]. simpl.
  rewrite (H r) by apply list_elem_of_here.
  f_equal. apply IH. intros r' Hr'. apply H. by apply list_elem_of_further.
Qed.

Lemma softDelete_tenants i w :
  tenants (snd (Repository.softDelete i w))
  = List.map (λ r, if has_id i r then with_deletedAt (Some (now w)) r else r)
      (tenants w).
Proof. reflexivity. Qed.

Lemma dropTenantSchema_table db s w :
  tenants (snd (TenantConnectionService.dropTenantSchema db s w)) = tenants w
  ∧ idSeq (snd (TenantConnectionService.dropTenantSchema db s w)) = idSeq w
  ∧ now (snd (TenantConnectionService.dropTenantSchema db s w)) = now w.
Proof. by destruct db. Qed.

(** After a tenant has been provisioned and removed, its tombstoned row still
    holds the unique keys: the availability check reports the subdomain
    free, and yet every further [create] of the same draft is refused by the
    unique index with a database error, storing nothing. *)
Theorem removed_subdomain_stays_taken
    (db db' : Ddl) (d : CreateTenantDto.t) (t : Tenant) (w w1 w2 : World) :
  ids_generated w = true →
  TenantsService.create db d w = (Resolved t, w1) →
  TenantsService.remove db' (id t) w1 = (Resolved tt, w2) →
  TenantsService.checkSubdomainAvailability (CreateTenantDto.subdomain d) w2
  = (Resolved true, w2)
  ∧ ∀ db'', TenantsService.create db'' d w2 = (Rejected duplicate_key, w2).
Proof.
  intros Hw Hc Hr.
  destruct (create_resolved _ _ _ _ _ Hw Hc) as (Hf & Hv & -> & Hrows & Hseq).
  set (p := pending_row d w) in *. set (a := with_status ACTIVE p) in *.
  destruct (remove_resolved _ _ _ _ Hr) as (t' & _ & ->).
  set (w2 := snd (Repository.softDelete _ _)).
  set (tomb := with_deletedAt (Some (now w1)) a).
  assert (tenants w2 = tenants w ++ [tomb]) as Hrows2.
  { unfold w2. rewrite softDelete_tenants.
    destruct (dropTenantSchema_table DdlOk (schemaName t') w1) as (-> & _ & ->).
    rewrite Hrows, List.map_app.
    rewrite map_if_absent by by apply (fresh_id_absent d w Hw).
    cbn [List.map]. by rewrite (has_id_refl a). }
  assert (idSeq w2 = S (idSeq w)) as Hseq2 by done.
  assert (∀ conditions,
            (∀ r, r ∈ tenants w → live r = true →
                  existsb (matches r) conditions = false) →
            Repository.findOne conditions w2 = None) as Hnone.
  { intros conditions Hold.
    destruct (Repository.findOne conditions w2) as [x|] eqn:Hx; [|done].
    apply findOne_Some in Hx as (Hin & Hl & Hm). exfalso.
    rewrite Hrows2 in Hin. apply elem_of_app in Hin as [Hin|Hin].
    - by rewrite (Hold x Hin Hl) in Hm.
    - apply list_elem_of_singleton in Hin as ->. done. }
  split.
  - unfold TenantsService.checkSubdomainAvailability. rewrite Hnone; [done|].
    intros r Hin _. cbn [existsb matches]. rewrite orb_false_r.
    apply String.eqb_neq.
    apply (violates_false_subdomain p (tenants w)); [done..|].
    by apply fresh_id_absent.
  - assert (ids_generated w2 = true) as Hw2.
    { apply ids_generated_intro. intros r Hin. rewrite Hrows2 in Hin.
      rewrite Hseq2. apply elem_of_app in Hin as [Hin|Hin].
      - destruct (ids_generated_elem _ _ Hw Hin) as (k & Hk & Hid).
        exists k. split; [lia|done].
      - apply list_elem_of_singleton in Hin as ->. exists (idSeq w).
        split; [lia|done]. }
    assert (violates (pending_row d w2) (tenants w2) = true) as Hv2.
    { apply (violates_duplicate _ _ tomb).
      - rewrite Hrows2. apply elem_of_app. right. apply list_elem_of_here.
      - unfold has_id. apply String.eqb_neq.
        change (id tomb) with (uuid (idSeq w)).
        change (id (pending_row d w2)) with (uuid (idSeq w2)). rewrite Hseq2.
        intros Heq. apply uuid_inj in Heq. lia.
      - by left. }
    intros db''. apply create_insert_rejected; [done| |done].
    apply Hnone. intros r Hin Hl. by apply (findOne_None _ _ _ Hf).
Qed.

Lemma removed_subdomain_stays_taken_witness :
  TenantsService.create DdlOk acme (snd (TenantsService.remove DdlOk "0" w_acme))
  = (Rejected duplicate_key, snd (TenantsService.remove DdlOk "0" w_acme)).
Proof.
  eapply (removed_subdomain_stays_taken DdlOk DdlOk acme _ world0 w_acme).
  - reflexivity.
  - vm_compute. reflexivity.
  - vm_compute. reflexivity.
Defined.

(** ** Updates *)

Lemma update_where_excludes_self tenant d :
  existsb (matches tenant) (TenantsService.update_where tenant d) = false.
Proof.
  unfold TenantsService.update_where. rewrite existsb_app.
  apply orb_false_iff. split.
  - destruct (UpdateTenantDto.subdomain d) as [v|]; [|done].
    destruct (truthy (Some v)); [|done]. cbn [andb].
    destruct (String.eqb v (subdomain tenant)) eqn:He; [done|].
    cbn [negb existsb matches]. rewrite orb_false_r.
    rewrite String.eqb_sym. done.
  - destruct (UpdateTenantDto.domain d) as [v|]; [|done].
    destruct (truthy (Some v)); [|done]. cbn [andb].
    destruct (strict_eq (Some v) (domain tenant)) eqn:He; [done|].
    cbn [negb existsb matches]. rewrite orb_false_r.
    unfold strict_eq in He. destruct (domain tenant) as [v'|]; [|done].
    rewrite String.eqb_sym. done.
Qed.

Lemma update_where_includes tenant d other v :
  v ≠ "" →
  (UpdateTenantDto.subdomain d = Some v ∧ v ≠ subdomain tenant
   ∧ subdomain other = v)
  ∨ (UpdateTenantDto.domain d = Some v ∧ domain tenant ≠ Some v
     ∧ domain other = Some v) →
  existsb (matches other) (TenantsService.update_where tenant d) = true
  ∧ truthy (UpdateTenantDto.subdomain d) || truthy (UpdateTenantDto.domain d)
    = true.
Proof.
  intros Hv H. apply String.eqb_neq in Hv.
  unfold TenantsService.update_where. rewrite existsb_app.
  destruct H as [(Hs & Hne & Ho)|(Hd & Hne & Ho)].
  - rewrite Hs. cbn [truthy]. rewrite Hv. cbn [negb andb orb].
    apply String.eqb_neq in Hne. rewrite Hne. cbn [negb existsb matches].
    by rewrite Ho, String.eqb_refl.
  - rewrite Hd. cbn [truthy]. rewrite Hv. cbn [negb andb].
    assert (strict_eq (Some v) (domain tenant) = false) as ->.
    { unfold strict_eq. destruct (domain tenant) as [v'|]; [|done].
      apply String.eqb_neq. congruence. }
    cbn [negb existsb matches]. rewrite Ho, String.eqb_refl.
    by rewrite !orb_true_r.
Qed.

(** [update] refuses to move a tenant onto a non-empty subdomain or domain
    that another tenant visible to lookups already has: it rejects with a
    [ConflictException] and stores nothing. *)
Theorem update_rejects_taken_handle
    (i v : string) (d : UpdateTenantDto.t) (tenant other : Tenant) (w : World) :
  primary_key w →
  Repository.findOne [ById i] w = Some tenant →
  other ∈ tenants w → live other = true →
  v ≠ "" →
  (UpdateTenantDto.subdomain d = Some v ∧ v ≠ subdomain tenant
   ∧ subdomain other = v)
  ∨ (UpdateTenantDto.domain d = Some v ∧ domain tenant ≠ Some v
     ∧ domain other = Some v) →
  TenantsService.update i d w
  = (Rejected (ConflictException "Subdomain or domain already exists"), w).
Proof.
  intros Hpk Hf Hin Hl Hv Hd.
  destruct (update_where_includes tenant d other v Hv Hd) as [Hm Htruthy].
  unfold TenantsService.update, await.
  rewrite (service_findOne_found _ _ _ Hf).
  unfold TenantsService.update_check. rewrite Htruthy.
  destruct (findOne_is_Some _ w other Hin Hl Hm) as [existingTenant Hex].
  assert ((0 <? length (TenantsService.update_where tenant d))%nat = true) as ->.
  { destruct (TenantsService.update_where tenant d); [done|]. done. }
  rewrite Hex.
  assert (String.eqb (id existingTenant) i = false) as ->; [|done].
  apply String.eqb_neq. intros Hid.
  pose proof (findOne_ById _ _ _ Hf) as (Hid' & Hint & _).
  apply findOne_Some in Hex as (Hine & _ & Hme).
  assert (existingTenant = tenant) as ->
    by (apply (primary_key_unique (tenants w)); [done..|congruence]).
  by rewrite update_where_excludes_self in Hme.
Qed.

Lemma update_rejects_taken_handle_witness :
  TenantsService.update "1" rename_to_acme2
    (snd (TenantsService.create DdlOk blank_one
            (snd (TenantsService.update "0" rename_to_acme2 w_acme))))
  = (Rejected (ConflictException "Subdomain or domain already exists"),
     snd (TenantsService.create DdlOk blank_one
            (snd (TenantsService.update "0" rename_to_acme2 w_acme)))).
Proof.
  eapply (update_rejects_taken_handle "1" "acme2" rename_to_acme2).
  - unfold primary_key. simpl. apply NoDup_cons. split.
    + rewrite list_elem_of_singleton. done.
    + apply NoDup_singleton.
  - vm_compute. reflexivity.
  - apply list_elem_of_here.
  - reflexivity.
  - done.
  - left. split_and!; [reflexivity|done|reflexivity].
Defined.

Lemma map_if_ids (f : Tenant → Tenant) i rows :
  (∀ r, id (f r) = id r ∧ schemaName (f r) = schemaName r) →
  (λ t, (id t, schemaName t))
    <$> List.map (λ r, if has_id i r then f r else r) rows
  = (λ t, (id t, schemaName t)) <$> rows.
Proof.
  intros Hf. change (List.map ?g ?l) with (g <$> l).
  rewrite <- list_fmap_compose. apply list_fmap_ext.
  intros k r _. simpl. destruct (has_id i r); [|done].
  destruct (Hf r) as [-> ->]. done.
Qed.

Lemma keys_to_ids (rows rows' : list Tenant) :
  (λ t : Tenant, (id t, schemaName t)) <$> rows'
  = (λ t, (id t, schemaName t)) <$> rows →
  id <$> rows' = id <$> rows.
Proof.
  intros H. apply (f_equal (fmap fst)) in H.
  by rewrite <- !list_fmap_compose in H.
Qed.




(** ** What a tenant's own administrator can change *)

Lemma elem_of_replace_row_inv e rows r :
  r ∈ replace_row e rows → r = e ∨ r ∈ rows.
Proof.
  unfold replace_row. change (List.map ?f ?l) with (f <$> l).
  intros H. apply list_elem_of_fmap in H as (x & -> & Hx).
  destruct (has_id (id e) x); [by left|by right].
Qed.

(** [updateCurrentTenant] lets the caller change nothing but the descriptive
    fields of the caller's own tenant: whatever the draft says, the tenant it
    returns has the status, the [isActive] flag, the subscription tier, the
    three quotas, the storage in use, the schema name and the id of the stored
    row, and every row of the table afterwards is that tenant or a row that
    was there before.  Without a tenant id it fails with a plain error and
    changes nothing. *)
Theorem updateCurrentTenant_keeps_privileged_fields
    (d : UpdateTenantDto.t) (tenantId : option string) (w : World) :
  (truthy tenantId = false →
   TenantsController.updateCurrentTenant d tenantId w
   = (PlainError "User is not associated with a tenant", w))
  ∧ ∀ t w',
      TenantsController.updateCurrentTenant d tenantId w = (Ok t, w') →
      ∃ i t0,
        tenantId = Some i
        ∧ Repository.findOne [ById i] w = Some t0
        ∧ id t = id t0
        ∧ status t = status t0
        ∧ isActive t = isActive t0
        ∧ subscriptionTier t = subscriptionTier t0
        ∧ maxUsers t = maxUsers t0
        ∧ maxProjects t = maxProjects t0
        ∧ storageLimit t = storageLimit t0
        ∧ storageUsed t = storageUsed t0
        ∧ schemaName t = schemaName t0
        ∧ ∀ r, r ∈ tenants w' → r = t ∨ r ∈ tenants w.
Proof.
  unfold TenantsController.updateCurrentTenant. split.
  - intros Hu. destruct tenantId as [i|]; [|done]. by rewrite Hu.
  - intros t w' Hrun. destruct tenantId as [i|]; [|done].
    destruct (truthy (Some i)); [|done].
    exists i. unfold TenantsService.update, await in Hrun.
    destruct (Repository.findOne [ById i] w) as [t0|] eqn:Hf.
    2: { by rewrite (service_findOne_missing _ _ Hf) in Hrun. }
    rewrite (service_findOne_found _ _ _ Hf) in Hrun.
    exists t0. split; [done|]. split; [done|].
    destruct (update_check_outcome i t0 (TenantsController.allowedUpdates d) w)
      as [Hc|[e Hc]]; rewrite Hc in Hrun; [|done].
    unfold Repository.save in Hrun.
    pose proof (findOne_ById _ _ _ Hf) as (Hid & Hin & _).
    assert (existsb
              (has_id (id (assign t0 (TenantsController.allowedUpdates d))))
              (tenants w) = true) as Hex.
    { apply existsb_exists. exists t0. split; [by apply list_elem_of_In|].
      exact (has_id_refl t0). }
    rewrite Hex in Hrun.
    destruct (unchanged _ (tenants w)).
    { simpl in Hrun. injection Hrun as <- <-.
      split_and!; [done..|]. intros r Hr. by right. }
    destruct (violates _ (tenants w)); [done|].
    simpl in Hrun. injection Hrun as <- <-.
    split_and!; [done..|].
    intros r Hr. simpl in Hr. by apply elem_of_replace_row_inv.
Qed.

Lemma updateCurrentTenant_keeps_privileged_fields_witness :
  ∃ t w',
    TenantsController.updateCurrentTenant status_suspended (Some "0") w_acme
    = (Ok t, w')
    ∧ status t = ACTIVE.
Proof.
  destruct (updateCurrentTenant_keeps_privileged_fields
              status_suspended (Some "0") w_acme) as [_ H].
  assert (TenantsController.updateCurrentTenant status_suspended (Some "0") w_acme
          = (Ok (with_status ACTIVE (pending_row acme world0)),
             snd (TenantsController.updateCurrentTenant status_suspended
                    (Some "0") w_acme))) as Hrun
    by (vm_compute; reflexivity).
  do 2 eexists. split; [exact Hrun|].
  destruct (H _ _ Hrun) as (i & t0 & [= <-] & Hf & _ & Hs & _).
  rewrite Hs. vm_compute in Hf. by injection Hf as <-.
Defined.

(** ** Closing connections *)

Lemma set_initialized_length h b l : length (set_initialized h b l) = length l.
Proof.
  unfold set_initialized. destruct (l !! h); [|done]. by rewrite length_insert.
Qed.

Lemma open_at_close h' l h :
  open_at (set_initialized h' false l) h
  = if decide (h = h') then false else open_at l h.
Proof.
  unfold open_at. destruct (decide (h = h')) as [->|Hne].
  - destruct (l !! h') as [ds|] eqn:Hl.
    + by rewrite (set_initialized_lookup _ _ _ _ Hl).
    + unfold set_initialized. rewrite Hl. by rewrite Hl.
  - by rewrite set_initialized_lookup_ne.
Qed.

Lemma open_at_close_all (entries : list (string * nat)) l h :
  open_at (foldr (λ e l, set_initialized e.2 false l) l entries) h
  = if decide (h ∈ entries.*2) then false else open_at l h.
Proof.
  induction entries as [|[s h'] entries IH].
  - simpl. destruct (decide (h ∈ [])) as [Hin|_]; [|done].
    by apply elem_of_nil in Hin.
  - rewrite fmap_cons. cbn [foldr snd]. rewrite open_at_close, IH.
    destruct (decide (h ∈ h' :: entries.*2)) as [Hin'|Hn'].
    + apply elem_of_cons in Hin' as [->|Hin'].
      * by destruct (decide (h' = h')).
      * destruct (decide (h = h')); [done|].
        by destruct (decide (h ∈ entries.*2)).
    + destruct (decide (h = h')) as [->|Hne].
      * exfalso. apply Hn', list_elem_of_here.
      * destruct (decide (h ∈ entries.*2)) as [Hin|_]; [|done].
        exfalso. by apply Hn', list_elem_of_further.
Qed.

(** [closeAllConnections] leaves an empty cache in which every connection that
    was cached is closed; it opens nothing, does not touch a connection that
    was not in the cache, and a second call changes nothing. *)
Theorem closeAllConnections_drains (w : World) :
  let w' := snd (TenantConnectionService.closeAllConnections w) in
  fst (TenantConnectionService.closeAllConnections w) = Resolved tt
  ∧ tenantConnections w' = ∅
  ∧ (∀ s h, tenantConnections w !! s = Some h →
            TenantConnectionService.is_open h w' = false)
  ∧ (∀ h, (∀ s, tenantConnections w !! s ≠ Some h) →
          TenantConnectionService.is_open h w'
          = TenantConnectionService.is_open h w)
  ∧ (∀ h, TenantConnectionService.is_open h w' = true →
          TenantConnectionService.is_open h w = true)
  ∧ TenantConnectionService.closeAllConnections w' = (Resolved tt, w').
Proof.
  simpl.
  set (opened := List.filter (λ e, TenantConnectionService.is_open e.2 w)
                   (map_to_list (tenantConnections w))).
  assert (∀ h, TenantConnectionService.is_open h
                 (snd (TenantConnectionService.closeAllConnections w))
               = if decide (h ∈ opened.*2) then false
                 else TenantConnectionService.is_open h w) as Hopen.
  { intros h. apply (open_at_close_all opened (dataSources w) h). }
  split_and!; [done|done| | | |].
  - intros s h Hs. rewrite Hopen.
    destruct (decide (h ∈ opened.*2)) as [_|Hn]; [done|].
    destruct (TenantConnectionService.is_open h w) eqn:Ho; [|done].
    exfalso. apply Hn. apply list_elem_of_fmap. exists (s, h). split; [done|].
    apply list_elem_of_In, filter_In. split; [|done].
    apply list_elem_of_In. by apply elem_of_map_to_list.
  - intros h Hnot. rewrite Hopen.
    destruct (decide (h ∈ opened.*2)) as [Hin|_]; [|done].
    exfalso. apply list_elem_of_fmap in Hin as ([s h'] & -> & Hin).
    apply list_elem_of_In, filter_In in Hin as [Hin _].
    apply list_elem_of_In, elem_of_map_to_list in Hin. by apply (Hnot s).
  - intros h. rewrite Hopen. by destruct (decide (h ∈ opened.*2)).
  - unfold TenantConnectionService.closeAllConnections at 1.
    cbn [tenantConnections snd]. rewrite map_to_list_empty. simpl.
    by rewrite app_nil_r.
Qed.

(** After [closeTenantConnection] the next [getTenantConnection] for the same
    schema connects again: it returns and caches a new open handle, while the
    closed one stays closed. *)
Theorem close_then_get_reconnects (s : string) (h : nat) (w : World) :
  tenantConnections w !! s = Some h →
  TenantConnectionService.is_open h w = true →
  ∃ w1 h' w2,
    TenantConnectionService.closeTenantConnection s w = (Resolved tt, w1)
    ∧ TenantConnectionService.getTenantConnection true s w1
      = (Resolved (Some h'), w2)
    ∧ h' ≠ h
    ∧ tenantConnections w2 !! s = Some h'
    ∧ TenantConnectionService.is_open h' w2 = true
    ∧ TenantConnectionService.is_open h w2 = false
    ∧ TenantConnectionService.connections_established w2
      = S (TenantConnectionService.connections_established w).
Proof.
  intros Hs Ho.
  pose proof (is_open_Some _ _ Ho) as [ds Hds].
  pose proof (lookup_lt_Some _ _ _ Hds) as Hlt.
  do 3 eexists. split; [by apply closeTenantConnection_open|].
  split.
  { apply getTenantConnection_miss. simpl. apply lookup_delete_eq. }
  simpl. rewrite set_initialized_length.
  split_and!.
  - lia.
  - apply lookup_insert_eq.
  - unfold TenantConnectionService.is_open. simpl.
    rewrite lookup_app_r by (rewrite set_initialized_length; lia).
    by rewrite set_initialized_length, Nat.sub_diag.
  - unfold TenantConnectionService.is_open. simpl.
    rewrite lookup_app_l by (rewrite set_initialized_length; lia).
    by rewrite (set_initialized_lookup _ _ _ _ Hds).
  - unfold TenantConnectionService.connections_established. simpl.
    rewrite !List.filter_app, !length_app. simpl. lia.
Qed.

Lemma close_then_get_reconnects_witness :
  ∃ w1 h' w2,
    TenantConnectionService.closeTenantConnection "tenant_acme" w_acme_connected
    = (Resolved tt, w1)
    ∧ TenantConnectionService.getTenantConnection true "tenant_acme" w1
      = (Resolved (Some h'), w2)
    ∧ h' ≠ 0%nat.
Proof.
  destruct (close_then_get_reconnects "tenant_acme" 0 w_acme_connected)
    as (w1 & h' & w2 & H1 & H2 & H3 & _);
    [vm_compute; reflexivity..|].
  by exists w1, h', w2.
Defined.

(** ** Invariants of every call *)

Lemma keeps_resolve {A} I (a : A) : keeps I (resolve a).
Proof. by intros w. Qed.

Lemma keeps_throw {A} I e : keeps I (@throw A e).
Proof. by intros w. Qed.

Lemma keeps_pure {A} I (m : Task A) : (∀ w, snd (m w) = w) → keeps I m.
Proof. intros H w Hw. by rewrite H. Qed.

Lemma keeps_await {A B} I (m : Task A) (k : A → Task B) :
  keeps I m → (∀ a, keeps I (k a)) → keeps I (await m k).
Proof.
  intros Hm Hk w Hw. unfold await. specialize (Hm w Hw).
  destruct (m w) as [[a|e] w1]; simpl in *; [by apply Hk|done].
Qed.

Lemma keeps_try_catch {A} I (body : Task A) (handler : Exception → Task A) :
  keeps I body → (∀ e, keeps I (handler e)) → keeps I (try_catch body handler).
Proof.
  intros Hb Hh w Hw. unfold try_catch. specialize (Hb w Hw).
  destruct (body w) as [[a|e] w1]; simpl in *; [done|by apply Hh].
Qed.

Lemma service_findOne_world i w : snd (TenantsService.findOne i w) = w.
Proof. unfold TenantsService.findOne. by destruct (Repository.findOne _ _). Qed.

Lemma create_check_world d w : snd (TenantsService.create_check d w) = w.
Proof. unfold TenantsService.create_check. by repeat case_match. Qed.

Lemma update_check_world i tenant d w :
  snd (TenantsService.update_check i tenant d w) = w.
Proof. unfold TenantsService.update_check. by repeat case_match. Qed.

(** The calls of the services are built from the primitives of the repository,
    of the DDL and of the cache; an invariant of the primitives is an
    invariant of every call. *)
Section closed_under_calls.
Variable I : World → Prop.
Hypothesis I_save : ∀ e, keeps I (Repository.save e).
Hypothesis I_delete : ∀ i, keeps I (Repository.delete i).
Hypothesis I_softDelete : ∀ i, keeps I (Repository.softDelete i).
Hypothesis I_storageUsed :
  ∀ i n, keeps I (Repository.update i (with_storageUsed n)).
Hypothesis I_lastActivityAt :
  ∀ i d, keeps I (Repository.update i (with_lastActivityAt d)).
Hypothesis I_createTenantSchema :
  ∀ db s, keeps I (TenantConnectionService.createTenantSchema db s).
Hypothesis I_dropTenantSchema :
  ∀ db s, keeps I (TenantConnectionService.dropTenantSchema db s).
Hypothesis I_getTenantConnection :
  ∀ b s, keeps I (TenantConnectionService.getTenantConnection b s).
Hypothesis I_closeTenantConnection :
  ∀ s, keeps I (TenantConnectionService.closeTenantConnection s).
Hypothesis I_closeAllConnections :
  keeps I TenantConnectionService.closeAllConnections.

Lemma update_keeps i d : keeps I (TenantsService.update i d).
Proof.
  unfold TenantsService.update.
  apply keeps_await; [apply keeps_pure, service_findOne_world|]. intros tenant.
  apply keeps_await; [apply keeps_pure, update_check_world|]. intros _.
  apply I_save.
Qed.

Lemma exec_keeps c : ∀ w, I w → I (exec c w).
Proof.
  destruct c; simpl.
  - apply (keeps_await I); [apply keeps_pure, create_check_world|]. intros _.
    apply keeps_await; [apply I_save|]. intros savedTenant.
    apply keeps_await; [|intros _; apply I_save].
    apply keeps_try_catch; [apply I_createTenantSchema|]. intros _.
    apply keeps_await; [apply I_delete|]. intros _. apply keeps_throw.
  - apply update_keeps.
  - intros w Hw. unfold TenantsController.updateCurrentTenant.
    destruct tenantId as [i|]; [|done].
    destruct (truthy (Some i)); [|done].
    pose proof (update_keeps i (TenantsController.allowedUpdates d) w Hw) as H.
    unfold respond.
    by destruct (TenantsService.update _ _ _) as [[?|?] ?].
  - apply (keeps_await I); [apply keeps_pure, service_findOne_world|].
    intros tenant. apply I_save.
  - apply (keeps_await I); [apply keeps_pure, service_findOne_world|].
    intros tenant. apply I_save.
  - apply (keeps_await I); [apply keeps_pure, service_findOne_world|].
    intros tenant. apply keeps_try_catch; [|intros _; apply keeps_throw].
    apply keeps_await; [apply I_dropTenantSchema|]. intros _.
    apply I_softDelete.
  - intros w. apply I_lastActivityAt.
  - unfold TenantsService.updateStorageUsed.
    destruct (bigint_of_number n unsafe); [apply I_storageUsed|apply keeps_throw].
  - apply I_getTenantConnection.
  - apply I_createTenantSchema.
  - apply I_dropTenantSchema.
  - apply I_closeTenantConnection.
  - apply I_closeAllConnections.
Qed.

Lemma run_keeps cs : ∀ w, I w → I (run cs w).
Proof.
  unfold run. induction cs as [|c cs IH]; intros w Hw; [done|].
  simpl. apply IH. by apply exec_keeps.
Qed.

End closed_under_calls.

(** *** The table *)

Lemma collides_sym a b : collides a b = collides b a.
Proof.
  unfold collides, same_domain.
  rewrite (String.eqb_sym (id b)), (String.eqb_sym (subdomain b)),
    (String.eqb_sym (schemaName b)).
  destruct (domain a) as [x|], (domain b) as [y|]; try done.
  by rewrite (String.eqb_sym y x).
Qed.

Lemma collides_same_keys a a' b b' :
  id a = id a' → subdomain a = subdomain a' → domain a = domain a' →
  schemaName a = schemaName a' →
  id b = id b' → subdomain b = subdomain b' → domain b = domain b' →
  schemaName b = schemaName b' →
  collides a b = collides a' b'.
Proof.
  intros Ha1 Ha2 Ha3 Ha4 Hb1 Hb2 Hb3 Hb4. unfold collides, same_domain.
  by rewrite Ha1, Ha2, Ha3, Ha4, Hb1, Hb2, Hb3, Hb4.
Qed.

Lemma collides_same_id a b : id a = id b → collides a b = false.
Proof. intros H. unfold collides. by rewrite H, String.eqb_refl. Qed.

Lemma violates_false_elem e rows r :
  violates e rows = false → r ∈ rows → collides e r = false.
Proof.
  unfold violates. intros Hv Hin. apply list_elem_of_In in Hin.
  destruct (collides e r) eqn:Hc; [|done].
  assert (existsb (collides e) rows = true) as Hex
    by (apply existsb_exists; eauto).
  by rewrite Hv in Hex.
Qed.

Lemma ids_generated_by_ids w w' :
  id <$> tenants w' = id <$> tenants w → (idSeq w ≤ idSeq w')%nat →
  ids_generated w = true → ids_generated w' = true.
Proof.
  intros Hids Hle Hw. apply ids_generated_intro. intros r' Hr'.
  assert (id r' ∈ id <$> tenants w) as Hin
    by (rewrite <- Hids; by apply list_elem_of_fmap_2).
  apply list_elem_of_fmap in Hin as (r & Hid & Hr).
  destruct (ids_generated_elem _ _ Hw Hr) as (k & Hk & Hk').
  exists k. split; [lia|congruence].
Qed.

Lemma table_ok_frame w w' :
  tenants w' = tenants w → idSeq w' = idSeq w → table_ok w → table_ok w'.
Proof.
  intros Ht Hs (Hg & Hpk & Hu). split_and!.
  - apply (ids_generated_by_ids w); [by rewrite Ht|lia|done].
  - unfold primary_key. by rewrite Ht.
  - unfold unique_columns. by rewrite Ht.
Qed.

Lemma elem_of_replace_row_kept e rows r :
  r ∈ replace_row e rows → r = e ∨ (r ∈ rows ∧ has_id (id e) r = false).
Proof.
  unfold replace_row. change (List.map ?f ?l) with (f <$> l).
  intros H. apply list_elem_of_fmap in H as (x & -> & Hx).
  destruct (has_id (id e) x) eqn:Hid; [by left|by right].
Qed.

Lemma save_keeps_table e : keeps table_ok (Repository.save e).
Proof.
  intros w (Hg & Hpk & Hu). unfold Repository.save.
  destruct (existsb (has_id (id e)) (tenants w)) eqn:Hex.
  - destruct (unchanged e (tenants w)); [done|].
    destruct (violates e (tenants w)) eqn:Hv; [done|]. simpl.
    split_and!.
    + apply (ids_generated_by_ids w); [|done..].
      simpl. apply replace_row_ids.
    + unfold primary_key. simpl. by rewrite replace_row_ids.
    + intros r1 r2 H1 H2. simpl in H1, H2.
      apply elem_of_replace_row_kept in H1 as [->|[H1 _]];
        apply elem_of_replace_row_kept in H2 as [->|[H2 _]].
      * by apply collides_same_id.
      * by apply (violates_false_elem e (tenants w)).
      * rewrite collides_sym. by apply (violates_false_elem e (tenants w)).
      * by apply Hu.
  - set (e' := with_id (uuid (idSeq w)) e).
    destruct (violates e' (tenants w)) eqn:Hv; [done|]. simpl.
    assert (∀ r, r ∈ tenants w → has_id (id e') r = false) as Hfresh.
    { apply has_id_absent; [done|]. right. by exists (idSeq w). }
    split_and!.
    + apply ids_generated_intro. simpl. intros r Hr.
      apply elem_of_app in Hr as [Hr|Hr].
      * destruct (ids_generated_elem _ _ Hg Hr) as (k & Hk & Hid).
        exists k. split; [lia|done].
      * apply list_elem_of_singleton in Hr as ->. exists (idSeq w).
        split; [lia|done].
    + unfold primary_key. simpl. rewrite fmap_app. apply NoDup_app.
      split_and!; [done| |apply NoDup_singleton].
      intros x Hx Hx'. apply list_elem_of_singleton in Hx' as ->.
      apply list_elem_of_fmap in Hx as (r & Hid & Hr).
      specialize (Hfresh r Hr). unfold has_id in Hfresh.
      apply String.eqb_neq in Hfresh. by apply Hfresh.
    + intros r1 r2 H1 H2. simpl in H1, H2.
      apply elem_of_app in H1 as [H1|H1]; apply elem_of_app in H2 as [H2|H2];
        try apply list_elem_of_singleton in H1 as ->;
        try apply list_elem_of_singleton in H2 as ->.
      * by apply Hu.
      * rewrite collides_sym. by apply (violates_false_elem e' (tenants w)).
      * by apply (violates_false_elem e' (tenants w)).
      * by apply collides_same_id.
Qed.

Lemma delete_keeps_table i : keeps table_ok (Repository.delete i).
Proof.
  intros w (Hg & Hpk & Hu). unfold Repository.delete. simpl.
  assert (∀ r, r ∈ List.filter (λ r, negb (has_id i r)) (tenants w) →
               r ∈ tenants w) as Hsub.
  { intros r Hr. apply list_elem_of_In, filter_In in Hr as [Hr _].
    by apply list_elem_of_In. }
  split_and!.
  - apply ids_generated_intro. simpl. intros r Hr.
    by apply (ids_generated_elem _ _ Hg), Hsub.
  - unfold primary_key in *. simpl. clear -Hpk.
    induction (tenants w) as [|r rows IH]; [done|].
    rewrite fmap_cons in Hpk. apply NoDup_cons in Hpk as [Hr Hpk].
    simpl. destruct (negb (has_id i r)); [|by apply IH].
    rewrite fmap_cons. apply NoDup_cons. split; [|by apply IH].
    intros Hin. apply Hr.
    apply list_elem_of_fmap in Hin as (x & -> & Hx).
    apply list_elem_of_fmap_2.
    apply list_elem_of_In, filter_In in Hx as [Hx _].
    by apply list_elem_of_In.
  - intros r1 r2 H1 H2. simpl in H1, H2. apply Hu; by apply Hsub.
Qed.

(** Rewriting the rows of one id with a change that keeps the id and the
    unique columns. *)
Lemma rewrite_rows_keeps_table (change : Tenant → Tenant) i ev w :
  (∀ r, id (change r) = id r ∧ subdomain (change r) = subdomain r
        ∧ domain (change r) = domain r ∧ schemaName (change r) = schemaName r) →
  table_ok w →
  table_ok
    (set_tenants
       (List.map (λ r, if has_id i r then change r else r) (tenants w)) ev w).
Proof.
  intros Hch (Hg & Hpk & Hu).
  assert (id <$> List.map (λ r, if has_id i r then change r else r) (tenants w)
          = id <$> tenants w) as Hids.
  { apply keys_to_ids, map_if_ids. intros r.
    destruct (Hch r) as (? & _ & _ & ?). done. }
  split_and!.
  - by apply (ids_generated_by_ids w).
  - unfold primary_key. simpl. by rewrite Hids.
  - intros r1 r2 H1 H2. simpl in H1, H2.
    change (List.map ?f ?l) with (f <$> l) in H1, H2.
    apply list_elem_of_fmap in H1 as (x1 & -> & Hx1).
    apply list_elem_of_fmap in H2 as (x2 & -> & Hx2).
    rewrite <- (Hu x1 x2 Hx1 Hx2).
    destruct (Hch x1) as (? & ? & ? & ?), (Hch x2) as (? & ? & ? & ?).
    destruct (has_id i x1), (has_id i x2); by apply collides_same_keys.
Qed.

(** The table is well-formed after every call of the services, however the
    call ends: every id was generated, no two rows share an id, and no two
    rows share a subdomain, a non-null domain or a schema name. *)
Theorem table_ok_invariant (cs : list Command) (w : World) :
  table_ok w → table_ok (run cs w).
Proof.
  apply run_keeps.
  - apply save_keeps_table.
  - apply delete_keeps_table.
  - intros i w0 Hw0. by apply rewrite_rows_keeps_table.
  - intros i n w0 Hw0. by apply rewrite_rows_keeps_table.
  - intros i d w0 Hw0. by apply rewrite_rows_keeps_table.
  - intros db s w0. apply table_ok_frame; by destruct db.
  - intros db s w0. apply table_ok_frame; by destruct db.
  - intros b s w0. apply table_ok_frame;
      unfold TenantConnectionService.getTenantConnection,
        TenantConnectionService.getTenantConnection_enter,
        TenantConnectionService.getTenantConnection_resume;
      (destruct (tenantConnections w0 !! s); [done|]); by destruct b.
  - intros s w0. apply table_ok_frame;
      unfold TenantConnectionService.closeTenantConnection;
      (destruct (tenantConnections w0 !! s) as [h|]; [|done]);
      by destruct (TenantConnectionService.is_open h w0).
  - intros w0. by apply table_ok_frame.
Qed.

Lemma table_ok_invariant_witness :
  table_ok
    (run [Create DdlOk acme; Suspend "0"; Create QueryFails blank_one;
          Create DdlOk blank_two; Remove DdlOk "0"; Create DdlOk acme]
       world0).
Proof.
  apply table_ok_invariant. split_and!.
  - reflexivity.
  - apply NoDup_nil_2.
  - intros r1 r2 H1. by apply elem_of_nil in H1.
Defined.

(** *** The cache *)

Lemma registry_ok_frame w w' :
  tenantConnections w' = tenantConnections w →
  dataSources w' = dataSources w →
  registry_ok w → registry_ok w'.
Proof. intros Hc Hd H s h. rewrite Hc, Hd. apply H. Qed.

Lemma registry_ok_evict s w w' :
  tenantConnections w' = delete s (tenantConnections w) →
  dataSources w' = dataSources w →
  registry_ok w → registry_ok w'.
Proof.
  intros Hc Hd H s' h. rewrite Hc, Hd. intros Hs'.
  apply lookup_delete_Some in Hs' as [_ Hs']. by apply H.
Qed.

Lemma getTenantConnection_keeps_registry b s :
  keeps registry_ok (TenantConnectionService.getTenantConnection b s).
Proof.
  intros w Hw.
  destruct (tenantConnections w !! s) as [h|] eqn:Hs.
  { unfold TenantConnectionService.getTenantConnection,
      TenantConnectionService.getTenantConnection_enter. by rewrite Hs. }
  destruct b.
  - rewrite (getTenantConnection_miss _ _ Hs). simpl. intros s' h' Hs'. simpl in *.
    destruct (decide (s = s')) as [->|Hne].
    + rewrite lookup_insert_eq in Hs'. injection Hs' as <-.
      exists (mkDataSource s' true). by rewrite lookup_snoc_last.
    + rewrite lookup_insert_ne in Hs' by done.
      destruct (Hw s' h' Hs') as (ds & Hds & ? & ?). exists ds.
      split; [|done]. rewrite lookup_app_l; [done|].
      by eapply lookup_lt_Some.
  - unfold TenantConnectionService.getTenantConnection,
      TenantConnectionService.getTenantConnection_enter. rewrite Hs. simpl.
    intros s' h' Hs'. simpl in *.
    destruct (Hw s' h' Hs') as (ds & Hds & ? & ?). exists ds.
    split; [|done]. rewrite lookup_app_l; [done|]. by eapply lookup_lt_Some.
Qed.

Lemma closeTenantConnection_keeps_registry s :
  keeps registry_ok (TenantConnectionService.closeTenantConnection s).
Proof.
  intros w Hw.
  destruct (tenantConnections w !! s) as [h|] eqn:Hs.
  2: { by rewrite closeTenantConnection_absent. }
  destruct (TenantConnectionService.is_open h w) eqn:Ho.
  2: { by rewrite (closeTenantConnection_closed _ _ _ Hs Ho). }
  rewrite (closeTenantConnection_open _ _ _ Hs Ho). simpl.
  intros s' h' Hs'. simpl in *.
  apply lookup_delete_Some in Hs' as [Hne Hs'].
  destruct (Hw s' h' Hs') as (ds' & Hds' & Hsch' & Hi').
  destruct (Hw s h Hs) as (ds & Hds & Hsch & _).
  exists ds'. split; [|done].
  rewrite set_initialized_lookup_ne; [done|].
  intros ->. rewrite Hds in Hds'. injection Hds' as ->. congruence.
Qed.

Lemma save_registry e w :
  tenantConnections (snd (Repository.save e w)) = tenantConnections w
  ∧ dataSources (snd (Repository.save e w)) = dataSources w.
Proof. unfold Repository.save. by repeat case_match. Qed.

(** The cache is sound after every call of the services, made one after the
    other: each entry refers to an open connection that was built for the
    schema of its key, and no two schemas share a connection. *)
Theorem registry_ok_invariant (cs : list Command) (w : World) :
  registry_ok w →
  registry_ok (run cs w)
  ∧ (∀ s h, tenantConnections (run cs w) !! s = Some h →
            TenantConnectionService.is_open h (run cs w) = true)
  ∧ (∀ s1 s2 h, tenantConnections (run cs w) !! s1 = Some h →
                tenantConnections (run cs w) !! s2 = Some h → s1 = s2).
Proof.
  intros Hw.
  assert (registry_ok (run cs w)) as Hok.
  { revert w Hw. apply run_keeps.
    - intros e w0. apply registry_ok_frame; apply save_registry.
    - intros i w0. by apply registry_ok_frame.
    - intros i w0. by apply registry_ok_frame.
    - intros i n w0. by apply registry_ok_frame.
    - intros i d w0. by apply registry_ok_frame.
    - intros db s w0. apply registry_ok_frame; by destruct db.
    - intros db s w0. destruct db; [|by apply registry_ok_frame..].
      by apply (registry_ok_evict s).
    - apply getTenantConnection_keeps_registry.
    - apply closeTenantConnection_keeps_registry.
    - intros w0 _ s h Hs. simpl in Hs. by rewrite lookup_empty in Hs. }
  split_and!; [done| |].
  - intros s h Hs. destruct (Hok s h Hs) as (ds & Hds & _ & Hi).
    unfold TenantConnectionService.is_open. by rewrite Hds.
  - intros s1 s2 h H1 H2.
    destruct (Hok s1 h H1) as (ds1 & Hds1 & <- & _).
    destruct (Hok s2 h H2) as (ds2 & Hds2 & <- & _).
    congruence.
Qed.

Lemma registry_ok_invariant_witness :
  registry_ok
    (run [Create DdlOk acme; GetTenantConnection true "tenant_acme";
          GetTenantConnection false "tenant_one"; CloseTenantConnection "tenant_acme";
          GetTenantConnection true "tenant_acme"; Remove DdlOk "0";
          CloseAllConnections]
       world0).
Proof.
  apply registry_ok_invariant. intros s h Hs. simpl in Hs.
  by rewrite lookup_empty in Hs.
Defined.

(** ** Round trips on a well-formed table *)

Lemma replace_row_twice e1 e2 rows :
  id e1 = id e2 → replace_row e2 (replace_row e1 rows) = replace_row e2 rows.
Proof.
  intros Hid. unfold replace_row. rewrite List.map_map.
  apply List.map_ext. intros r. unfold has_id. rewrite Hid.
  destruct (String.eqb (id r) (id e2)) eqn:He; [|by rewrite He].
  by rewrite <- Hid, String.eqb_refl.
Qed.

(** Storing a changed copy of a stored row always goes through when the
    change leaves the unique columns alone. *)
Lemma save_changed_row e t0 w :
  table_ok w → t0 ∈ tenants w → e ≠ t0 →
  id e = id t0 → subdomain e = subdomain t0 → domain e = domain t0 →
  schemaName e = schemaName t0 →
  Repository.save e w
  = (Resolved e, set_tenants (replace_row e (tenants w)) [Updated e] w).
Proof.
  intros (_ & Hpk & Hu) Hin Hne Hid Hs Hd Hn. unfold Repository.save.
  assert (existsb (has_id (id e)) (tenants w) = true) as ->.
  { apply existsb_exists. exists t0. split; [by apply list_elem_of_In|].
    unfold has_id. by rewrite Hid, String.eqb_refl. }
  rewrite (unchanged_differs (tenants w) e t0) by done.
  assert (violates e (tenants w) = false) as ->; [|done].
  apply not_true_is_false. intros Hv.
  apply existsb_exists in Hv as (r & Hr & Hc).
  apply list_elem_of_In in Hr.
  rewrite (collides_same_keys e t0 r r) in Hc by done.
  by rewrite (Hu t0 r Hin Hr) in Hc.
Qed.

(** On a well-formed table, suspending a usable tenant and activating it
    again both go through and give back the tenant and the table as they
    were. *)
Theorem suspend_activate_round_trip (i : string) (t0 : Tenant) (w : World) :
  table_ok w →
  Repository.findOne [ById i] w = Some t0 →
  usable t0 = true →
  ∃ t1 w1 w2,
    TenantsService.suspend i w = (Resolved t1, w1)
    ∧ usable t1 = false
    ∧ TenantsService.activate i w1 = (Resolved t0, w2)
    ∧ tenants w2 = tenants w.
Proof.
  intros Hok Hf Hus.
  pose proof Hok as (_ & Hpk & _).
  pose proof (findOne_ById _ _ _ Hf) as (Hid & Hin & Hl).
  set (t1 := with_isActive false (with_status SUSPENDED t0)).
  assert (t1 ≠ t0) as Hne.
  { intros Heq. apply (f_equal usable) in Heq. by rewrite Hus in Heq. }
  assert (TenantsService.suspend i w
          = (Resolved t1, set_tenants (replace_row t1 (tenants w)) [Updated t1] w))
    as Hs.
  { unfold TenantsService.suspend, await.
    rewrite (service_findOne_found _ _ _ Hf).
    by apply (save_changed_row t1 t0). }
  set (w1 := set_tenants (replace_row t1 (tenants w)) [Updated t1] w) in *.
  assert (table_ok w1) as Hok1.
  { pose proof (table_ok_invariant [Suspend i] w Hok) as H.
    unfold run in H. simpl in H. by rewrite Hs in H. }
  assert (Repository.findOne [ById i] w1 = Some t1) as Hf1.
  { rewrite <- Hid. change (id t0) with (id t1). apply findOne_of_member.
    - by destruct Hok1 as (_ & ? & _).
    - simpl. by apply (elem_of_replace_row _ _ t0).
    - done. }
  assert (with_isActive true (with_status ACTIVE t1) = t0) as Hback.
  { unfold usable in Hus. apply andb_true_iff in Hus as [Hst Ha].
    apply bool_decide_eq_true in Hst.
    destruct t0. simpl in *. by subst. }
  exists t1, w1. eexists. split; [done|]. split; [done|].
  assert (t1 ∈ tenants w1) as Hin1.
  { simpl. by apply (elem_of_replace_row _ _ t0). }
  unfold TenantsService.activate, await.
  rewrite (service_findOne_found _ _ _ Hf1), Hback.
  rewrite (save_changed_row t0 t1 w1 Hok1 Hin1) by done.
  split; [reflexivity|]. simpl.
  rewrite replace_row_twice by done. by apply replace_row_self.
Qed.

Lemma suspend_activate_round_trip_witness :
  ∃ t1 w1 w2,
    TenantsService.suspend "0" w_acme = (Resolved t1, w1)
    ∧ TenantsService.activate "0" w1
      = (Resolved (with_status ACTIVE (pending_row acme world0)), w2)
    ∧ tenants w2 = tenants w_acme.
Proof.
  destruct (suspend_activate_round_trip "0"
              (with_status ACTIVE (pending_row acme world0)) w_acme)
    as (t1 & w1 & w2 & H1 & _ & H2 & H3).
  - apply (table_ok_invariant [Create DdlOk acme] world0). split_and!.
    + reflexivity.
    + apply NoDup_nil_2.
    + intros r1 r2 Hr. by apply elem_of_nil in Hr.
  - vm_compute. reflexivity.
  - reflexivity.
  - by exists t1, w1, w2.
Defined.

(** [update] with a draft that names no field resolves with the stored
    tenant and does nothing else: the entity it saves equals the stored row,
    so no statement is sent and the world is as before. *)
Theorem update_without_fields (i : string) (t0 : Tenant) (w : World) :
  primary_key w →
  Repository.findOne [ById i] w = Some t0 →
  TenantsService.update i empty_draft w = (Resolved t0, w).
Proof.
  intros Hpk Hf.
  pose proof (findOne_ById _ _ _ Hf) as (Hid & Hin & _).
  assert (assign t0 empty_draft = t0) as Hsame by by destruct t0.
  unfold TenantsService.update, await.
  rewrite (service_findOne_found _ _ _ Hf). simpl. rewrite Hsame.
  unfold Repository.save.
  assert (existsb (has_id (id t0)) (tenants w) = true) as ->.
  { apply existsb_exists. exists t0. split; [by apply list_elem_of_In|].
    apply has_id_refl. }
  by rewrite unchanged_stored.
Qed.

Lemma update_without_fields_witness :
  TenantsService.update "0" empty_draft w_acme
  = (Resolved (with_status ACTIVE (pending_row acme world0)), w_acme).
Proof.
  apply (update_without_fields "0").
  - unfold primary_key. simpl. apply NoDup_singleton.
  - vm_compute. reflexivity.
Defined.

(** ** Overlapping calls that may fail *)

(** Two overlapping calls of [getTenantConnection] for an uncached schema
    settle each on its own: a call resolves exactly when its own
    [initialize()] succeeded, as many connections are established as calls
    succeeded, and the cache has an entry for the schema exactly when one of
    them did. *)
Theorem overlapping_calls_settle_separately
    (initialize : TenantConnectionService.Caller → bool)
    (schedule : list TenantConnectionService.Caller) (s : string) (w : World) :
  tenantConnections w !! s = None →
  schedule ∈ TenantConnectionService.overlapping →
  ∃ a b w',
    TenantConnectionService.interleave initialize schedule
      (TenantConnectionService.Invoked s) (TenantConnectionService.Invoked s) w
    = (TenantConnectionService.Settled a, TenantConnectionService.Settled b, w')
    ∧ ((∃ h, a = Resolved (Some h))
       ↔ initialize TenantConnectionService.First = true)
    ∧ ((∃ h, b = Resolved (Some h))
       ↔ initialize TenantConnectionService.Second = true)
    ∧ TenantConnectionService.connections_established w'
      = (TenantConnectionService.connections_established w
         + connected initialize)%nat
    ∧ (is_Some (tenantConnections w' !! s) ↔ connected initialize ≠ 0%nat).
Proof.
  intros Hmiss Hin. unfold connected.
  destruct (initialize TenantConnectionService.First) eqn:HA;
    destruct (initialize TenantConnectionService.Second) eqn:HB.
  all: repeat (apply elem_of_cons in Hin as [->|Hin]);
    [..|by apply elem_of_nil in Hin].
  all: simpl; unfold TenantConnectionService.getTenantConnection_enter;
    rewrite ?Hmiss; simpl; rewrite ?HA, ?HB; simpl;
    rewrite ?Hmiss, ?HA, ?HB; simpl.
  all: do 3 eexists; (split; [reflexivity|]); simpl.
  all: split_and!;
    [ split; [try (intros [h Hh]; discriminate Hh); done
             |try done; intros _; by eexists]
    | split; [try (intros [h Hh]; discriminate Hh); done
             |try done; intros _; by eexists]
    | unfold TenantConnectionService.connections_established; simpl;
      rewrite ?List.filter_app, ?length_app; simpl; lia
    | split; [try done; intros [x Hx]; by rewrite Hmiss in Hx
             |try done; intros _;
              first [by rewrite lookup_insert_eq; eexists]] ].
Qed.

Lemma overlapping_calls_settle_separately_witness :
  ∃ a b w',
    TenantConnectionService.interleave
      (λ c, match c with
            | TenantConnectionService.First => false
            | TenantConnectionService.Second => true
            end)
      TenantConnectionService.both_started
      (TenantConnectionService.Invoked "tenant_acme")
      (TenantConnectionService.Invoked "tenant_acme") w_acme
    = (TenantConnectionService.Settled a, TenantConnectionService.Settled b, w')
    ∧ TenantConnectionService.connections_established w' = 1%nat.
Proof.
  destruct (overlapping_calls_settle_separately
              (λ c, match c with
                    | TenantConnectionService.First => false
                    | TenantConnectionService.Second => true
                    end)
              TenantConnectionService.both_started "tenant_acme" w_acme)
    as (a & b & w' & Hrun & _ & _ & Hn & _).
  - vm_compute. reflexivity.
  - apply list_elem_of_here.
  - exists a, b, w'. split; [exact Hrun|]. rewrite Hn. vm_compute. reflexivity.
Defined.

Lemma closeAllConnections_drains_witness :
  tenantConnections w_acme_connected !! "tenant_acme" = Some 0%nat
  ∧ TenantConnectionService.is_open 0 w_acme_connected = true
  ∧ TenantConnectionService.is_open 0
      (snd (TenantConnectionService.closeAllConnections w_acme_connected))
    = false.
Proof.
  pose proof (closeAllConnections_drains w_acme_connected)
    as (_ & _ & Hclosed & _).
  split_and!.
  - vm_compute. reflexivity.
  - vm_compute. reflexivity.
  - apply (Hclosed "tenant_acme"). vm_compute. reflexivity.
Defined.
